(** * diceware.py: unbiased dice and the diceware word list

    A shallow embedding of [src/diceware.py], read as Python 3.  Python
    integers are [Z], the bytes read from [os.urandom] are [Byte.byte],
    text is [string] (one [ascii] per code point, so the model covers code
    points 0..255), the [words] dictionary is a [gmap string string], and
    an attribute that may hold [None] is an [option].  A call that raises
    returns [Raise]; the recursion of [_verify] is bounded by the number of
    nested calls allowed, and the entropy source is the list of bytes it
    will deliver. *)

From Stdlib Require Import ZArith List Ascii String Strings.Byte Bool Lia.
From Stdlib Require Import DecimalString Finite.
From stdpp Require Import base option list gmap strings sorting.

Local Open Scope string_scope.
Local Open Scope Z_scope.

(** ** Exceptions and results *)

Inductive exn : Type :=
| AssertionError
| DicewareWordListException (msg : string).

Inductive result (A : Type) : Type :=
| Ok (a : A)
| Raise (e : exn).
Arguments Ok {A} a.
Arguments Raise {A} e.

(** ** Built-ins *)

(** [range(lo, hi)]. *)
Definition range (lo hi : Z) : list Z := seqZ lo (hi - lo).

(** [str(n)] for an integer. *)
Definition str (n : Z) : string := NilEmpty.string_of_int (Z.to_int n).

(** [len(s)]. *)
Definition len (s : string) : Z := Z.of_nat (String.length s).

(** ** class Dice *)

Module Dice.

Record t : Type := mk { num_sides : Z; ceiling : Z }.

(** [Dice.__init__]: the assertion, then [divisor] and [ceiling].  On the
    asserted range [int(256 / num_sides)] is the integer quotient. *)
Definition __init__ (num_sides : Z) : result t :=
  if (2 <=? num_sides) && (num_sides <=? 20) then
    let divisor := 256 / num_sides in
    Ok (mk num_sides (divisor * num_sides - 1))
  else Raise AssertionError.

(** The value of one byte of [os.urandom(1)], an integer in 0..255. *)
Definition byte_value (b : byte) : Z := Z.of_N (Byte.to_N b).

(** [Dice.roll], reading from the bytes the entropy source will deliver.
    The [while] loop drops every byte above [ceiling]; [None] means the
    source delivered only such bytes, so the loop has not ended.  A die
    comes from [__init__], so [num_sides] is positive and [%] on a byte
    value is [mod]. *)
Fixpoint roll (d : t) (entropy : list byte) : option (Z * list byte) :=
  match entropy with
  | [] => None
  | b :: rest =>
      let random := byte_value b in
      if random >? ceiling d then roll d rest
      else
        let side := random mod num_sides d in
        Some (side + 1, rest)
  end.

End Dice.

(** ** Text

    Characters are code points 0..255.  On that range [str.isspace] and
    the pattern class [\s] accept the same twelve characters, and [\d]
    accepts the ten decimal digits. *)

Definition code (c : ascii) : Z := Z.of_N (N_of_ascii c).

Definition isspace (c : ascii) : bool :=
  let n := code c in
  ((9 <=? n) && (n <=? 13)) || ((28 <=? n) && (n <=? 32))
  || (n =? 133) || (n =? 160).

Definition isdigit (c : ascii) : bool :=
  let n := code c in (48 <=? n) && (n <=? 57).

Definition newline : ascii := ascii_of_nat 10.

Definition is_newline (c : ascii) : bool := code c =? 10.

Definition is_empty (s : string) : bool :=
  match s with EmptyString => true | String _ _ => false end.

(** [s.lstrip()], [s.rstrip()] and [s.strip()]. *)
Fixpoint lstrip (s : string) : string :=
  match s with
  | EmptyString => EmptyString
  | String c s' => if isspace c then lstrip s' else s
  end.

Fixpoint rstrip (s : string) : string :=
  match s with
  | EmptyString => EmptyString
  | String c s' =>
      let r := rstrip s' in
      if is_empty r && isspace c then EmptyString else String c r
  end.

Definition strip (s : string) : string := rstrip (lstrip s).

(** The longest prefix of [s] whose characters satisfy [p], and the rest:
    what a greedy [p*] consumes. *)
Fixpoint span (p : ascii -> bool) (s : string) : string * string :=
  match s with
  | EmptyString => (EmptyString, EmptyString)
  | String c s' =>
      if p c then let '(a, b) := span p s' in (String c a, b)
      else (EmptyString, s)
  end.

Fixpoint string_forallb (p : ascii -> bool) (s : string) : bool :=
  match s with
  | EmptyString => true
  | String c s' => p c && string_forallb p s'
  end.

(** The text matched by a lazy [.*?] followed by [$]: [.] takes anything
    but a newline, and [$] holds at the end of the text or before a
    newline that ends it. *)
Fixpoint dots_to_end (s : string) : option string :=
  match s with
  | EmptyString => Some EmptyString
  | String c s' =>
      if is_newline c then
        if is_empty s' then Some EmptyString else None
      else
        match dots_to_end s' with
        | Some r => Some (String c r)
        | None => None
        end
  end.

(** [$] alone. *)
Definition at_end (s : string) : bool :=
  match s with
  | EmptyString => true
  | String c s' => is_newline c && is_empty s'
  end.

(** [int(s)] for a text of decimal digits, most significant first. *)
Definition digit_value (c : ascii) : Z := code c - 48.

Fixpoint int_from (acc : Z) (s : string) : Z :=
  match s with
  | EmptyString => acc
  | String c s' => int_from (10 * acc + digit_value c) s'
  end.

Definition int (s : string) : Z := int_from 0 s.

(** [c.upper()]: applied to the text of an option name only, that is to
    the letters a..z and A..Z. *)
Definition upper_char (c : ascii) : ascii :=
  let n := code c in
  if (97 <=? n) && (n <=? 122) then ascii_of_N (Z.to_N (n - 32)) else c.

Fixpoint upper (s : string) : string :=
  match s with
  | EmptyString => EmptyString
  | String c s' => String (upper_char c) (upper s')
  end.

(** A literal matched under [re.I]: [lit] is given in upper case, and on
    code points 0..255 a letter of an option name matches itself in either
    case and nothing else.  Returns the text matched and the rest. *)
Fixpoint literal_nocase (lit s : string) : option (string * string) :=
  match lit with
  | EmptyString => Some (EmptyString, s)
  | String k lit' =>
      match s with
      | EmptyString => None
      | String c s' =>
          if Ascii.eqb (upper_char c) k then
            match literal_nocase lit' s' with
            | Some (m, r) => Some (String c m, r)
            | None => None
            end
          else None
      end
  end.

(** ** The two patterns of the word list *)

(** [PARSE_WORD = ^(\d+)\s+(.*?)$]: groups 1 and 2 of a match. *)
Definition PARSE_WORD (line : string) : option (string * string) :=
  let '(digits, r1) := span isdigit line in
  if is_empty digits then None
  else
    let '(spaces, r2) := span isspace r1 in
    if is_empty spaces then None
    else
      match dots_to_end r2 with
      | Some rest => Some (digits, rest)
      | None => None
      end.

(** [PARSE_OPTION = ^(D(?:ICE)|S(?:IDES))\s*[=:]\s*(\d+)$] under [re.I]:
    groups 1 and 2 of a match. *)
Definition is_separator (c : ascii) : bool :=
  (code c =? 61) || (code c =? 58).

Definition option_name (line : string) : option (string * string) :=
  match literal_nocase "DICE" line with
  | Some r => Some r
  | None => literal_nocase "SIDES" line
  end.

Definition PARSE_OPTION (line : string) : option (string * string) :=
  match option_name line with
  | None => None
  | Some (name, r1) =>
      let '(_, r2) := span isspace r1 in
      match r2 with
      | EmptyString => None
      | String c r3 =>
          if is_separator c then
            let '(_, r4) := span isspace r3 in
            let '(digits, r5) := span isdigit r4 in
            if is_empty digits then None
            else if at_end r5 then Some (name, digits)
            else None
          else None
      end
  end.

(** ** DicewarePassword *)

Module DicewarePassword.

(** [words] holds what [dict.get] returned: [None] for an absent key. *)
Record t : Type := mk { rolls : list string; words : list (option string) }.

End DicewarePassword.

(** ** Statements that may raise, and loops over them

    [None] stands for a computation that has not ended within the budget
    of nested calls it was given. *)

Fixpoint for_each {A : Type} (body : A -> option (result unit)) (l : list A)
  : option (result unit) :=
  match l with
  | [] => Some (Ok tt)
  | x :: l' =>
      match body x with
      | Some (Ok _) => for_each body l'
      | stop => stop
      end
  end.

(** ** Reading the entropy source

    A computation that reads from [os.urandom] takes the bytes the source
    will deliver and returns its value with the bytes left, or [None]
    when it is still waiting for a byte it can use. *)

Definition Entropy (A : Type) : Type := list byte -> option (A * list byte).

Definition ret {A : Type} (a : A) : Entropy A := fun e => Some (a, e).

Definition bind {A B : Type} (m : Entropy A) (k : A -> Entropy B) : Entropy B :=
  fun e => match m e with
           | Some (a, e') => k a e'
           | None => None
           end.

Notation "x <~ m ;; k" := (bind m (fun x => k))
  (at level 100, m at next level, right associativity).

(** [[m for x in range(n)]]. *)
Fixpoint replicate_m {A : Type} (n : nat) (m : Entropy A) : Entropy (list A) :=
  match n with
  | O => ret []
  | S n' => x <~ m ;; xs <~ replicate_m n' m ;; ret (x :: xs)
  end.

(** [''.join(l)]. *)
Definition join (l : list string) : string :=
  fold_right String.append EmptyString l.

(** ** class DicewareWordList *)

Module DicewareWordList.

Definition DEFAULT_DICE_SIDES : Z := 6.
Definition DEFAULT_NUM_DICE : Z := 5.

Record t : Type := mk {
  dice_sides : Z;
  num_dice : Z;
  dice : option Dice.t;
  words : option (gmap string string)
}.

(** [DicewareWordList()]: the class attributes. *)
Definition new : t := mk DEFAULT_DICE_SIDES DEFAULT_NUM_DICE None None.

Definition set_dice_sides (v : Z) (wl : t) : t :=
  mk v (num_dice wl) (dice wl) (words wl).
Definition set_num_dice (v : Z) (wl : t) : t :=
  mk (dice_sides wl) v (dice wl) (words wl).
Definition set_dice (d : option Dice.t) (wl : t) : t :=
  mk (dice_sides wl) (num_dice wl) d (words wl).
Definition set_words (w : option (gmap string string)) (wl : t) : t :=
  mk (dice_sides wl) (num_dice wl) (dice wl) w.

(** [self.words[roll] = word]; [load] has made [words] a dictionary
    before it stores anything. *)
Definition store (roll word : string) (wl : t) : t :=
  set_words (Some (<[roll := word]> (default ∅ (words wl)))) wl.

(** [not self.words]: [None] and the empty dictionary are false. *)
Definition no_words (wl : t) : bool :=
  match words wl with
  | None => true
  | Some m => bool_decide (m = ∅)
  end.

(** [self.words.get(roll)]. *)
Definition get (wl : t) (roll : string) : option string :=
  match words wl with
  | None => None
  | Some m => m !! roll
  end.

(** [not self.words.get(roll, None)]: absent, or the empty text. *)
Definition no_word (wl : t) (roll : string) : bool :=
  match get wl roll with
  | None => true
  | Some w => is_empty w
  end.

(** [_is_valid_roll]; [roll] is text matched by [\d+], so [int] is applied
    to decimal digits only. *)
Definition _is_valid_roll (wl : t) (roll : string) : bool :=
  if negb (len roll =? num_dice wl) then false
  else
    string_forallb
      (fun dice_roll =>
         bool_decide (int (String dice_roll EmptyString)
                        ∈ range 1 (dice_sides wl + 1)))
      roll.

(** One turn of the loop of [load], on the object and [found_words]. *)
Definition load_line (st : t * bool) (raw : string) : t * bool :=
  let '(wl, found_words) := st in
  let line := strip raw in
  if is_empty line then st
  else
    let '(wl1, found_words1) :=
      match PARSE_WORD line with
      | Some (roll, word) =>
          (if _is_valid_roll wl roll then store roll word wl else wl, true)
      | None => (wl, found_words)
      end in
    if negb found_words1 then
      match PARSE_OPTION line with
      | Some (name, digits) =>
          let opt := upper name in
          let value := int digits in
          match opt with
          | String c _ =>
              if Ascii.eqb c "D" then (set_num_dice value wl1, found_words1)
              else if Ascii.eqb c "S" then (set_dice_sides value wl1, found_words1)
              else (wl1, found_words1)
          | EmptyString => (wl1, found_words1)
          end
      | None => (wl1, found_words1)
      end
    else (wl1, found_words1).

(** The loop of [load], started on the empty dictionary. *)
Definition scan (wl : t) (wordlist : list string) : t * bool :=
  fold_left load_line wordlist (set_words (Some ∅) wl, false).

(** [load]: the object after the call, and how the call ended. *)
Definition load (wl : t) (wordlist : list string) : t * result unit :=
  let wl1 := fst (scan wl wordlist) in
  match Dice.__init__ (dice_sides wl1) with
  | Ok d => (set_dice (Some d) wl1, Ok tt)
  | Raise e => (wl1, Raise e)
  end.

Definition dquote : string := String (ascii_of_nat 34) EmptyString.

Definition msg_not_loaded : string := "No word list has been loaded.".

Definition msg_missing (roll : string) : string :=
  "Word missing for dice roll " ++ dquote ++ roll ++ dquote ++ ".".

(** [_verify]; [depth] bounds the number of nested calls. *)
Fixpoint _verify (wl : t) (depth : nat) (prefix : string)
  : option (result unit) :=
  match depth with
  | O => None
  | S depth' =>
      for_each
        (fun side =>
           let roll := prefix ++ str side in
           if len roll =? num_dice wl then
             if no_word wl roll then
               Some (Raise (DicewareWordListException (msg_missing roll)))
             else Some (Ok tt)
           else _verify wl depth' roll)
        (range 1 (dice_sides wl + 1))
  end.

(** [verify]. *)
Definition verify (wl : t) (depth : nat) : option (result unit) :=
  if no_words wl then
    Some (Raise (DicewareWordListException msg_not_loaded))
  else _verify wl depth "".

(** [_roll_dice] with the die [d] of the object. *)
Definition _roll_dice (wl : t) (d : Dice.t) : Entropy string :=
  sides <~ replicate_m (Z.to_nat (num_dice wl)) (Dice.roll d) ;;
  ret (join (map str sides)).

(** [get_password]. *)
Definition get_password (wl : t) (num_words : Z)
  : Entropy DicewarePassword.t :=
  match dice wl with
  | None => ret (DicewarePassword.mk [] [])
  | Some d =>
      if no_words wl then ret (DicewarePassword.mk [] [])
      else
        rolls <~ replicate_m (Z.to_nat num_words) (_roll_dice wl d) ;;
        let words := map (get wl) rolls in
        ret (DicewarePassword.mk rolls words)
  end.

End DicewareWordList.

(** ** Counting the bytes behind each outcome *)

(** The 256 values a byte of entropy can take. *)
Definition all_bytes : list byte :=
  flat_map
    (fun n => match Byte.of_N (N.of_nat n) with Some b => [b] | None => [] end)
    (seq 0 256).

(** [produces d k b]: a roll that reads [b] first returns [k] on it. *)
Definition produces (d : Dice.t) (k : Z) (b : byte) : bool :=
  match Dice.roll d [b] with
  | Some (side, _) => side =? k
  | None => false
  end.

(** [accepts d b]: a roll that reads [b] first returns on it. *)
Definition accepts (d : Dice.t) (b : byte) : bool :=
  match Dice.roll d [b] with
  | Some _ => true
  | None => false
  end.

(** The two counts at one pair of a number of sides and an outcome. *)
Definition uniform_at (sides k : Z) : bool :=
  match Dice.__init__ sides with
  | Ok d =>
      Nat.eqb (length (List.filter (produces d k) all_bytes))
              (Z.to_nat (256 / sides))
      && Nat.eqb (length (List.filter (accepts d) all_bytes))
                 (Z.to_nat (Dice.ceiling d + 1))
  | Raise _ => false
  end.

(** ** Lines of a word list, as [load] sees them *)

(** A line with the shape of a word entry: it sets [found_words]. *)
Definition word_shaped (raw : string) : bool :=
  match PARSE_WORD (strip raw) with
  | Some _ => true
  | None => false
  end.

(** The number of bytes of [entropy] that a roll of [d] can use. *)
Definition usable (d : Dice.t) (entropy : list byte) : nat :=
  length (List.filter (accepts d) entropy).

(** [consumes d k m]: given [k] usable bytes, [m] returns and has used
    exactly [k] of them. *)
Definition consumes {A : Type} (d : Dice.t) (k : nat) (m : Entropy A) : Prop :=
  forall e, (k <= usable d e)%nat ->
            exists a e', m e = Some (a, e') /\ usable d e' = (usable d e - k)%nat.

(** ** The keys [verify] has to find *)

(** The roll keys of [n] dice with [sides] sides, each die written by
    [str], in the order of the nested loops of [_verify]: first die
    first, sides ascending. *)
Fixpoint all_rolls (sides : Z) (n : nat) : list string :=
  match n with
  | O => [EmptyString]
  | S n' =>
      flat_map (fun side => map (String.append (str side)) (all_rolls sides n'))
               (range 1 (sides + 1))
  end.

(** How [verify] ends when [missing] is the first key without a word. *)
Definition report (missing : option string) : option (result unit) :=
  match missing with
  | Some roll =>
      Some (Raise (DicewareWordListException
                     (DicewareWordList.msg_missing roll)))
  | None => Some (Ok tt)
  end.

(** ** A word list for a ten-sided die *)

Definition ten_sided_lines : list string :=
  ["DICE=1"; "SIDES=10";
   "1 a"; "2 b"; "3 c"; "4 d"; "5 e"; "6 f"; "7 g"; "8 h"; "9 i"].

Definition ten_sided : DicewareWordList.t :=
  fst (DicewareWordList.load DicewareWordList.new ten_sided_lines).

(** The test [_is_valid_roll] applies to each character. *)
Definition side_char (sides : Z) (c : ascii) : bool :=
  bool_decide (int (String c EmptyString) ∈ range 1 (sides + 1)).

(** [stops p s]: a greedy run of [p] cannot enter [s]. *)
Definition stops (p : ascii -> bool) (s : string) : bool :=
  match s with
  | EmptyString => true
  | String c _ => negb (p c)
  end.

(** ** A word list for three two-sided dice, two keys filled in *)

Definition two_sided_lines : list string :=
  ["DICE=3"; "SIDES=2"; "111 a"; "112 b"].

Definition two_sided : DicewareWordList.t :=
  fst (DicewareWordList.load DicewareWordList.new two_sided_lines).

(** ** What [load] keeps true of the dictionary *)

(** An entry as [load] stores them: the key is a non-empty text of digits
    that [_is_valid_roll] accepts, the word is not empty and has no white
    space around it. *)
Definition entry_ok (wl : DicewareWordList.t) (roll word : string) : Prop :=
  is_empty roll = false /\
  string_forallb isdigit roll = true /\
  DicewareWordList._is_valid_roll wl roll = true /\
  is_empty word = false /\
  strip word = word.

(** The state of the loop of [load]: [words] is a dictionary, it is empty
    as long as [found_words] is false, and every entry is as above. *)
Definition scan_inv (st : DicewareWordList.t * bool) : Prop :=
  exists m : gmap string string,
    DicewareWordList.words (fst st) = Some m /\
    (snd st = false -> m = ∅) /\
    forall roll word, m !! roll = Some word -> entry_ok (fst st) roll word.

(** ** The order of the keys *)

(** [a] comes before [b] in the order of texts, character by character. *)
Definition key_lt (a b : string) : Prop := String.compare a b = Lt.

(** ** A complete word list for one two-sided die *)

Definition coin_lines : list string := ["DICE=1"; "SIDES=2"; "1 a"; "2 b"].

Definition coin : DicewareWordList.t :=
  fst (DicewareWordList.load DicewareWordList.new coin_lines).

(** ** How a computation uses the entropy source *)

(** [starves d k m]: with fewer than [k] usable bytes, [m] does not
    return. *)
Definition starves {A : Type} (d : Dice.t) (k : nat) (m : Entropy A) : Prop :=
  forall e, (usable d e < k)%nat -> m e = None.


(** ** The script

    The statements of the module after the argument parser: load and
    verify the word list, then write the passwords.  The parsed arguments
    are given; [out] tells whether [--out] names a file.  What the script
    writes is kept line by line, without the newline that ends each
    line. *)

Module Script.

Record args : Type := mk_args {
  wordlist : list string;
  words : Z;
  passwords : Z;
  showrolls : bool;
  out : bool
}.

(** How the script ends: at its last statement, at [exit()], or with an
    exception nothing catches; [' '.join] raises [TypeError] on a list
    that holds [None]. *)
Inductive ending : Type :=
| Finished
| Exited
| Uncaught (e : exn)
| TypeError.

(** What was written to the standard output and to the file of [--out],
    and how the script ended. *)
Record transcript : Type := mk_transcript {
  stdout : list string;
  file : list string;
  ended : ending
}.

(** [sep.join(l)] for a list of texts. *)
Fixpoint join_sep (sep : string) (l : list string) : string :=
  match l with
  | [] => EmptyString
  | [x] => x
  | x :: l' => x ++ sep ++ join_sep sep l'
  end.

(** The texts of a list that may hold [None]; [None] when it does. *)
Fixpoint texts (l : list (option string)) : option (list string) :=
  match l with
  | [] => Some []
  | None :: _ => None
  | Some x :: l' =>
      match texts l' with
      | Some xs => Some (x :: xs)
      | None => None
      end
  end.

Definition tab : string := String (ascii_of_nat 9) EmptyString.

(** The line written for one password; [None] when [' '.join] raises. *)
Definition line_of (a : args) (password : DicewarePassword.t)
  : option string :=
  let line := if showrolls a
              then [join_sep " " (DicewarePassword.rolls password)]
              else [] in
  match texts (DicewarePassword.words password) with
  | None => None
  | Some ws => Some (join_sep tab (line ++ [join_sep " " ws]))
  end.

(** The loop over [range(args.passwords)]: the lines written and how the
    loop ended, or [None] while a roll waits for entropy. *)
Fixpoint write_passwords (a : args) (wl : DicewareWordList.t) (n : nat)
    (entropy : list byte) : option (list string * ending) :=
  match n with
  | O => Some ([], Finished)
  | S n' =>
      match DicewareWordList.get_password wl (words a) entropy with
      | None => None
      | Some (password, rest) =>
          match line_of a password with
          | None => Some ([], TypeError)
          | Some line =>
              match write_passwords a wl n' rest with
              | Some (lines, e) => Some (line :: lines, e)
              | None => None
              end
          end
      end
  end.

(** The [except] clause: print the message and [exit()]. *)
Definition handle (e : exn) : transcript :=
  match e with
  | DicewareWordListException msg => mk_transcript [msg] [] Exited
  | _ => mk_transcript [] [] (Uncaught e)
  end.

(** The script; [None] when it has not ended: [verify] needs more nested
    calls than [depth], or a roll waits for entropy. *)
Definition main (a : args) (depth : nat) (entropy : list byte)
  : option transcript :=
  match DicewareWordList.load DicewareWordList.new (wordlist a) with
  | (_, Raise e) => Some (handle e)
  | (wl, Ok _) =>
      match DicewareWordList.verify wl depth with
      | None => None
      | Some (Raise e) => Some (handle e)
      | Some (Ok _) =>
          match write_passwords a wl (Z.to_nat (passwords a)) entropy with
          | None => None
          | Some (lines, e) =>
              Some (if out a then mk_transcript [] lines e
                    else mk_transcript lines [] e)
          end
      end
  end.

End Script.

(** ** Counting the byte sequences behind each roll key *)

(** The sequences of [n] bytes. *)
Fixpoint byte_seqs (n : nat) : list (list byte) :=
  match n with
  | O => [[]]
  | S n' => flat_map (fun b => map (cons b) (byte_seqs n')) all_bytes
  end.

(** [hits n d key e]: [n] rolls of [d] that read [e] return, and their
    sides written one after the other give [key]. *)
Definition hits (n : nat) (d : Dice.t) (key : string) (e : list byte) : bool :=
  match replicate_m n (Dice.roll d) e with
  | Some (sides, _) => String.eqb (join (map str sides)) key
  | None => false
  end.

(** [rolls_key wl d key e]: [_roll_dice] returns [key] when it reads [e]. *)
Definition rolls_key (wl : DicewareWordList.t) (d : Dice.t) (key : string)
    (e : list byte) : bool :=
  match DicewareWordList._roll_dice wl d e with
  | Some (roll, _) => String.eqb roll key
  | None => false
  end.

(** A line that [load] skips: empty once stripped. *)
Definition blank (raw : string) : bool := is_empty (strip raw).

(** * Properties of the die *)

Section DiceFacts.

Lemma byte_value_range (b : byte) : 0 <= Dice.byte_value b <= 255.
Proof.
  unfold Dice.byte_value.
  pose proof (Byte.to_N_bounded b) as Hb. lia.
Qed.

Lemma all_bytes_complete (b : byte) : In b all_bytes.
Proof.
  unfold all_bytes. apply in_flat_map.
  exists (N.to_nat (Byte.to_N b)). split.
  - apply in_seq. pose proof (Byte.to_N_bounded b). lia.
  - rewrite N2Nat.id, Byte.of_to_N. left. reflexivity.
Qed.

Lemma all_bytes_length : length all_bytes = 256%nat.
Proof. reflexivity. Qed.

Lemma all_bytes_NoDup : List.NoDup all_bytes.
Proof.
  apply (NoDup_map_inv Byte.to_N).
  replace (map Byte.to_N all_bytes) with (map N.of_nat (seq 0 256))
    by (vm_compute; reflexivity).
  apply Finite.Injective_map_NoDup; [|apply seq_NoDup].
  intros x y Hxy. lia.
Qed.

Lemma init_inv (sides : Z) (d : Dice.t) :
  Dice.__init__ sides = Ok d ->
  2 <= sides <= 20 /\ d = Dice.mk sides (256 / sides * sides - 1).
Proof.
  unfold Dice.__init__.
  destruct (2 <=? sides) eqn:Hlo; destruct (sides <=? 20) eqn:Hhi;
    simpl; intros H; inversion H; subst; split; auto; lia.
Qed.

Lemma init_in_range (sides : Z) :
  2 <= sides <= 20 ->
  Dice.__init__ sides = Ok (Dice.mk sides (256 / sides * sides - 1)).
Proof.
  intros [Hlo Hhi]. unfold Dice.__init__.
  apply Z.leb_le in Hlo, Hhi. rewrite Hlo, Hhi. reflexivity.
Qed.

Lemma init_out_of_range (sides : Z) :
  sides < 2 \/ 20 < sides -> Dice.__init__ sides = Raise AssertionError.
Proof.
  intros H. unfold Dice.__init__.
  destruct (2 <=? sides) eqn:Hlo; destruct (sides <=? 20) eqn:Hhi;
    simpl; auto; lia.
Qed.

Lemma ceiling_bounds (sides : Z) :
  2 <= sides <= 20 -> sides - 1 <= 256 / sides * sides - 1 <= 255.
Proof.
  intros H.
  assert (Hq : 1 <= 256 / sides) by (apply Z.div_le_lower_bound; lia).
  pose proof (Z.mul_div_le 256 sides ltac:(lia)) as Hm.
  nia.
Qed.

(** One step of the loop of [roll]. *)
Lemma roll_cons (d : Dice.t) (b : byte) (rest : list byte) :
  Dice.roll d (b :: rest) =
    if Dice.byte_value b >? Dice.ceiling d then Dice.roll d rest
    else Some (Dice.byte_value b mod Dice.num_sides d + 1, rest).
Proof. reflexivity. Qed.

Lemma roll_skips (d : Dice.t) (skipped rest : list byte) :
  Forall (fun x => Dice.byte_value x > Dice.ceiling d) skipped ->
  Dice.roll d (skipped ++ rest) = Dice.roll d rest.
Proof.
  induction 1 as [|x l Hx _ IH]; [reflexivity|].
  change ((x :: l) ++ rest)%list with (x :: (l ++ rest))%list.
  rewrite roll_cons.
  destruct (Z.gtb_spec (Dice.byte_value x) (Dice.ceiling d)); [exact IH | lia].
Qed.

Lemma roll_inv (d : Dice.t) (entropy : list byte) (r : Z) (rest : list byte) :
  Dice.roll d entropy = Some (r, rest) ->
  exists skipped b,
    entropy = (skipped ++ b :: rest)%list /\
    Forall (fun x => Dice.byte_value x > Dice.ceiling d) skipped /\
    Dice.byte_value b <= Dice.ceiling d /\
    r = Dice.byte_value b mod Dice.num_sides d + 1.
Proof.
  induction entropy as [|x l IH]; [discriminate|].
  rewrite roll_cons.
  destruct (Z.gtb_spec (Dice.byte_value x) (Dice.ceiling d)) as [Hgt|Hle].
  - intros H. destruct (IH H) as (sk & b & -> & Hsk & Hb & Hr).
    exists (x :: sk), b. repeat split; auto.
    constructor; [lia | exact Hsk].
  - intros H. inversion H; subst.
    exists [], x. repeat split; auto.
Qed.

End DiceFacts.

Section Uniformity.

Lemma uniform_table :
  forallb (fun sides => forallb (uniform_at sides) (range 1 (sides + 1)))
          (range 2 21) = true.
Proof. vm_compute. reflexivity. Qed.

Lemma in_range (lo hi x : Z) : lo <= x < hi -> In x (range lo hi).
Proof.
  intros H. apply list_elem_of_In. unfold range.
  apply elem_of_seqZ. lia.
Qed.

Lemma accepts_iff (d : Dice.t) (b : byte) :
  accepts d b = true <-> Dice.byte_value b <= Dice.ceiling d.
Proof.
  unfold accepts. rewrite roll_cons.
  destruct (Z.gtb_spec (Dice.byte_value b) (Dice.ceiling d)); simpl;
    split; intros; try lia; auto; discriminate.
Qed.

Lemma produces_iff (d : Dice.t) (k : Z) (b : byte) :
  produces d k b = true <->
  Dice.byte_value b <= Dice.ceiling d /\
  Dice.byte_value b mod Dice.num_sides d + 1 = k.
Proof.
  unfold produces. rewrite roll_cons.
  destruct (Z.gtb_spec (Dice.byte_value b) (Dice.ceiling d)); simpl.
  - split; [discriminate | lia].
  - rewrite Z.eqb_eq. split; [auto | tauto].
Qed.

End Uniformity.

(** C1. For every [sides] in 2..20 the die built by [Dice.__init__] has
    [ceiling = floor(256/sides)*sides - 1]; the byte values a roll accepts
    are exactly those in [0..ceiling], [ceiling + 1] of them; and each
    outcome [k] in [1..sides] is produced by exactly [floor(256/sides)] of
    the 256 byte values, namely the accepted ones with
    [(b mod sides) + 1 = k]. *)
Theorem roll_uniform (sides k : Z) (d : Dice.t) :
  2 <= sides <= 20 ->
  Dice.__init__ sides = Ok d ->
  1 <= k <= sides ->
  Dice.ceiling d = 256 / sides * sides - 1 /\
  (forall b, accepts d b = true <-> 0 <= Dice.byte_value b <= Dice.ceiling d) /\
  length (List.filter (accepts d) all_bytes) = Z.to_nat (Dice.ceiling d + 1) /\
  (forall b, produces d k b = true <->
             0 <= Dice.byte_value b <= Dice.ceiling d /\
             Dice.byte_value b mod sides + 1 = k) /\
  length (List.filter (produces d k) all_bytes) = Z.to_nat (256 / sides).
Proof.
  intros Hs Hd Hk.
  pose proof uniform_table as Htab.
  rewrite forallb_forall in Htab.
  specialize (Htab sides (in_range 2 21 sides ltac:(lia))).
  rewrite forallb_forall in Htab.
  specialize (Htab k (in_range 1 (sides + 1) k ltac:(lia))).
  unfold uniform_at in Htab. rewrite Hd in Htab.
  apply andb_true_iff in Htab as [Hk1 Hk2].
  apply Nat.eqb_eq in Hk1, Hk2.
  destruct (init_inv _ _ Hd) as [_ ->].
  unfold Dice.ceiling, Dice.num_sides in *.
  split; [reflexivity|].
  split.
  { intros b. rewrite accepts_iff. unfold Dice.ceiling.
    pose proof (byte_value_range b). lia. }
  split; [exact Hk2|].
  split; [|exact Hk1].
  intros b. rewrite produces_iff. unfold Dice.ceiling, Dice.num_sides.
  pose proof (byte_value_range b). lia.
Qed.

Lemma roll_uniform_witness :
  2 <= 6 <= 20 /\ Dice.__init__ 6 = Ok (Dice.mk 6 251) /\ 1 <= 4 <= 6 /\
  length (List.filter (produces (Dice.mk 6 251) 4) all_bytes) = 42%nat.
Proof.
  assert (H1 : 2 <= 6 <= 20) by lia.
  assert (H2 : 1 <= 4 <= 6) by lia.
  split; [exact H1|]. split; [reflexivity|]. split; [exact H2|].
  exact (proj2 (proj2 (proj2 (proj2
           (roll_uniform 6 4 (Dice.mk 6 251) H1 eq_refl H2))))).
Defined.

(** C2. For a die built with [sides] in 2..20 and any bytes delivered by
    the entropy source: whenever [roll] returns, its result lies in
    [1..sides], it is [(b mod sides) + 1] for the first byte [b] with
    [b <= ceiling], the bytes before [b] (all above [ceiling]) were
    discarded and the bytes after [b] are left unread.  Conversely [roll]
    does return as soon as the source delivers such a byte. *)
Theorem roll_first_accepted (sides : Z) (d : Dice.t) (entropy : list byte) :
  Dice.__init__ sides = Ok d ->
  (forall r rest,
      Dice.roll d entropy = Some (r, rest) ->
      1 <= r <= sides /\
      exists skipped b,
        entropy = (skipped ++ b :: rest)%list /\
        Forall (fun x => Dice.byte_value x > Dice.ceiling d) skipped /\
        Dice.byte_value b <= Dice.ceiling d /\
        r = Dice.byte_value b mod sides + 1) /\
  (forall skipped b rest,
      entropy = (skipped ++ b :: rest)%list ->
      Forall (fun x => Dice.byte_value x > Dice.ceiling d) skipped ->
      Dice.byte_value b <= Dice.ceiling d ->
      Dice.roll d entropy = Some (Dice.byte_value b mod sides + 1, rest)).
Proof.
  intros Hd. destruct (init_inv _ _ Hd) as [Hs ->]. split.
  - intros r rest Hroll.
    destruct (roll_inv _ _ _ _ Hroll) as (sk & b & He & Hsk & Hb & Hr).
    unfold Dice.num_sides in Hr. split.
    + pose proof (Z.mod_pos_bound (Dice.byte_value b) sides ltac:(lia)). lia.
    + exists sk, b. auto.
  - intros sk b rest -> Hsk Hb.
    rewrite roll_skips by exact Hsk. rewrite roll_cons.
    destruct (Z.gtb_spec (Dice.byte_value b)
                (Dice.ceiling (Dice.mk sides (256 / sides * sides - 1))));
      [lia | reflexivity].
Qed.

Lemma roll_first_accepted_witness :
  Dice.__init__ 6 = Ok (Dice.mk 6 251) /\
  Dice.roll (Dice.mk 6 251) [xff; xfc; x0a; x01] = Some (5, [x01]) /\
  1 <= 5 <= 6.
Proof.
  split; [reflexivity|]. split; [reflexivity|].
  exact (proj1 (proj1 (roll_first_accepted 6 (Dice.mk 6 251)
                         [xff; xfc; x0a; x01] eq_refl)
                  5 [x01] eq_refl)).
Defined.

(** * Properties of the word list *)

Section LoadFacts.

Import DicewareWordList.

Lemma fold_left_preserves {S A : Type} (P : S -> Prop) (f : S -> A -> S) :
  (forall s a, P s -> P (f s a)) ->
  forall l s, P s -> P (fold_left f l s).
Proof.
  intros Hf l. induction l as [|a l IH]; intros s Hs; simpl; auto.
Qed.

(** The loop of [load] never assigns [dice]. *)
Lemma load_line_dice (st : t * bool) (raw : string) :
  dice (fst (load_line st raw)) = dice (fst st).
Proof.
  destruct st as [wl fw]. unfold load_line.
  repeat case_match; simplify_eq; simpl; auto;
    repeat case_match; simplify_eq; simpl; auto.
Qed.

Lemma scan_dice (wl : t) (wordlist : list string) :
  dice (fst (scan wl wordlist)) = dice wl.
Proof.
  unfold scan.
  apply (fold_left_preserves (fun st => dice (fst st) = dice wl)).
  - intros st raw H. rewrite load_line_dice. exact H.
  - reflexivity.
Qed.

End LoadFacts.

(** C7. Building a die with [sides] outside 2..20 fails (the assertion of
    [Dice.__init__] raises), and a [load] whose scan ends with such a
    number of sides ends with that same error and leaves [dice] as it
    was; for [sides] within 2..20 the construction succeeds with
    [ceiling = floor(256/sides)*sides - 1], and such a [load] returns
    with that die. *)
Theorem dice_init_range (sides : Z) :
  (sides < 2 \/ 20 < sides ->
   Dice.__init__ sides = Raise AssertionError /\
   forall wl wordlist,
     DicewareWordList.dice_sides (fst (DicewareWordList.scan wl wordlist)) = sides ->
     snd (DicewareWordList.load wl wordlist) = Raise AssertionError /\
     DicewareWordList.dice (fst (DicewareWordList.load wl wordlist))
       = DicewareWordList.dice wl) /\
  (2 <= sides <= 20 ->
   Dice.__init__ sides = Ok (Dice.mk sides (256 / sides * sides - 1)) /\
   forall wl wordlist,
     DicewareWordList.dice_sides (fst (DicewareWordList.scan wl wordlist)) = sides ->
     snd (DicewareWordList.load wl wordlist) = Ok tt /\
     DicewareWordList.dice (fst (DicewareWordList.load wl wordlist))
       = Some (Dice.mk sides (256 / sides * sides - 1))).
Proof.
  split.
  - intros Hout. split; [apply init_out_of_range; exact Hout|].
    intros wl wordlist Hsides. unfold DicewareWordList.load.
    rewrite Hsides, (init_out_of_range _ Hout). simpl.
    split; [reflexivity | apply scan_dice].
  - intros Hin. split; [apply init_in_range; exact Hin|].
    intros wl wordlist Hsides. unfold DicewareWordList.load.
    rewrite Hsides, (init_in_range _ Hin). simpl.
    split; reflexivity.
Qed.

Lemma dice_init_range_witness :
  (20 < 21 /\
   snd (DicewareWordList.load DicewareWordList.new ["SIDES=21"; "11111 a"])
     = Raise AssertionError) /\
  (2 <= 8 <= 20 /\
   DicewareWordList.dice
     (fst (DicewareWordList.load DicewareWordList.new ["sides: 8"; "11111 a"]))
     = Some (Dice.mk 8 255)).
Proof.
  assert (H21 : 21 < 2 \/ 20 < 21) by lia.
  assert (H8 : 2 <= 8 <= 20) by lia.
  split; (split; [lia|]).
  - exact (proj1 (proj2 (proj1 (dice_init_range 21) H21)
                    DicewareWordList.new ["SIDES=21"; "11111 a"] eq_refl)).
  - exact (proj2 (proj2 (proj2 (dice_init_range 8) H8)
                    DicewareWordList.new ["sides: 8"; "11111 a"] eq_refl)).
Defined.

Section VerifyFacts.

Import DicewareWordList.

Lemma append_cons (c : ascii) (a b : string) :
  String.append (String c a) b = String c (String.append a b).
Proof. reflexivity. Qed.

Lemma append_empty_r (a : string) : String.append a EmptyString = a.
Proof.
  induction a as [|c a IH]; [reflexivity|].
  rewrite append_cons, IH. reflexivity.
Qed.

Lemma append_assoc (a b c : string) :
  String.append (String.append a b) c = String.append a (String.append b c).
Proof.
  induction a as [|x a IH]; [reflexivity|].
  rewrite !append_cons, IH. reflexivity.
Qed.

Lemma len_app (a b : string) : len (String.append a b) = len a + len b.
Proof.
  unfold len. induction a as [|c a IH]; [reflexivity|].
  rewrite append_cons. simpl String.length. lia.
Qed.

Lemma len_nonneg (a : string) : 0 <= len a.
Proof. unfold len. lia. Qed.

(** Below ten, [str] writes one character. *)
Lemma len_str_digit (side : Z) : 1 <= side <= 9 -> len (str side) = 1.
Proof.
  intros H.
  assert (Hc : side = 1 \/ side = 2 \/ side = 3 \/ side = 4 \/ side = 5 \/
               side = 6 \/ side = 7 \/ side = 8 \/ side = 9) by lia.
  repeat (destruct Hc as [->|Hc]; [reflexivity|]). subst. reflexivity.
Qed.

Lemma range_cons (lo hi : Z) : lo < hi -> range lo hi = lo :: range (lo + 1) hi.
Proof.
  intros H. unfold range. rewrite seqZ_cons by lia.
  f_equal. f_equal; lia.
Qed.

Lemma for_each_mono {A : Type} (f g : A -> option (result unit)) (l : list A) :
  (forall x r, f x = Some r -> g x = Some r) ->
  forall r, for_each f l = Some r -> for_each g l = Some r.
Proof.
  intros Hfg. induction l as [|x l IH]; intros r; simpl; [auto|].
  destruct (f x) as [[[]|e]|] eqn:Hfx; try discriminate.
  - rewrite (Hfg _ _ Hfx). apply IH.
  - rewrite (Hfg _ _ Hfx). auto.
Qed.

Lemma for_each_total {A : Type} (f : A -> option (result unit)) (l : list A) :
  (forall x, In x l -> exists r, f x = Some r) ->
  exists r, for_each f l = Some r.
Proof.
  induction l as [|x l IH]; intros Hf; simpl; [eauto|].
  destruct (Hf x (or_introl eq_refl)) as [[[]|e] Hx]; rewrite Hx.
  - apply IH. intros y Hy. apply Hf. right. exact Hy.
  - eauto.
Qed.

(** One level of [_verify]. *)
Lemma _verify_S (wl : t) (depth : nat) (prefix : string) :
  _verify wl (S depth) prefix =
  for_each
    (fun side =>
       let roll := String.append prefix (str side) in
       if len roll =? num_dice wl then
         if no_word wl roll then
           Some (Raise (DicewareWordListException (msg_missing roll)))
         else Some (Ok tt)
       else _verify wl depth roll)
    (range 1 (dice_sides wl + 1)).
Proof. reflexivity. Qed.

(** A larger budget of nested calls does not change a result. *)
Lemma _verify_mono (wl : t) (depth : nat) :
  forall prefix r,
    _verify wl depth prefix = Some r -> _verify wl (S depth) prefix = Some r.
Proof.
  induction depth as [|depth IH]; intros prefix r; [discriminate|].
  rewrite (_verify_S wl (S depth)), (_verify_S wl depth).
  apply for_each_mono. intros side r'. simpl.
  destruct (len (String.append prefix (str side)) =? num_dice wl); [auto|].
  apply IH.
Qed.

Lemma _verify_mono_le (wl : t) (d1 d2 : nat) (prefix : string) (r : result unit) :
  (d1 <= d2)%nat ->
  _verify wl d1 prefix = Some r -> _verify wl d2 prefix = Some r.
Proof.
  induction 1 as [|d2 _ IH]; [auto|].
  intros H. apply _verify_mono, IH, H.
Qed.

(** Once the key under construction is as long as a roll or longer, every
    further call goes one level deeper: the recursion has no end. *)
Lemma _verify_overlong (wl : t) (depth : nat) :
  1 <= dice_sides wl ->
  forall prefix, num_dice wl <= len prefix -> _verify wl depth prefix = None.
Proof.
  intros Hs. induction depth as [|depth IH]; intros prefix Hlen; [reflexivity|].
  rewrite _verify_S, range_cons by lia. simpl.
  assert (Hroll : len (String.append prefix (str 1)) = len prefix + 1)
    by (rewrite len_app; reflexivity).
  destruct (Z.eqb_spec (len (String.append prefix (str 1))) (num_dice wl));
    [lia|].
  rewrite IH by lia. reflexivity.
Qed.

(** With one-character sides, a key that still lacks [k] characters needs
    exactly [k] nested calls. *)
Lemma _verify_too_shallow (wl : t) (depth : nat) :
  1 <= dice_sides wl ->
  forall prefix,
    (depth < Z.to_nat (num_dice wl - len prefix))%nat ->
    _verify wl depth prefix = None.
Proof.
  intros Hs. induction depth as [|depth IH]; intros prefix Hd; [reflexivity|].
  rewrite _verify_S, range_cons by lia. simpl.
  assert (Hroll : len (String.append prefix (str 1)) = len prefix + 1)
    by (rewrite len_app; reflexivity).
  destruct (Z.eqb_spec (len (String.append prefix (str 1))) (num_dice wl));
    [lia|].
  rewrite IH by lia. reflexivity.
Qed.

Lemma _verify_deep_enough (wl : t) (k : nat) :
  dice_sides wl <= 9 ->
  forall prefix,
    num_dice wl - len prefix = Z.of_nat k -> (1 <= k)%nat ->
    exists r, _verify wl k prefix = Some r.
Proof.
  intros Hs. induction k as [|k IH]; intros prefix Hk Hpos; [lia|].
  rewrite _verify_S. apply for_each_total. intros side Hin.
  apply list_elem_of_In, elem_of_seqZ in Hin. simpl.
  assert (Hroll : len (String.append prefix (str side)) = len prefix + 1)
    by (rewrite len_app, len_str_digit by lia; reflexivity).
  destruct (Z.eqb_spec (len (String.append prefix (str side))) (num_dice wl)).
  - destruct (no_word wl _); eauto.
  - apply IH; lia.
Qed.

End VerifyFacts.

(** C8. When [words] is unset or empty, [verify] raises the word-list
    exception with the message that no word list has been loaded, whatever
    the dice configuration is; it does so even with no nested call of
    [_verify] allowed, so no key is enumerated. *)
Theorem verify_not_loaded (wl : DicewareWordList.t) :
  DicewareWordList.words wl = None \/ DicewareWordList.words wl = Some ∅ ->
  DicewareWordList.verify wl 0 =
    Some (Raise (DicewareWordListException "No word list has been loaded.")) /\
  forall depth,
    DicewareWordList.verify wl depth = DicewareWordList.verify wl 0.
Proof.
  intros Hw.
  assert (Hno : DicewareWordList.no_words wl = true).
  { unfold DicewareWordList.no_words.
    destruct Hw as [-> | ->]; [reflexivity|].
    apply bool_decide_eq_true. reflexivity. }
  unfold DicewareWordList.verify. rewrite Hno. split; reflexivity.
Qed.

Lemma verify_not_loaded_witness :
  DicewareWordList.words DicewareWordList.new = None /\
  DicewareWordList.verify DicewareWordList.new 0 =
    Some (Raise (DicewareWordListException "No word list has been loaded.")).
Proof.
  split; [reflexivity|].
  exact (proj1 (verify_not_loaded DicewareWordList.new (or_introl eq_refl))).
Defined.

(** C9. For a non-empty [words], [num_dice >= 1] and [dice_sides] in 2..9,
    [verify] ends, and the nesting of [_verify] calls it needs is exactly
    [num_dice]: with [num_dice] nested calls or more allowed it ends with
    one and the same result, with fewer it does not end. *)
Theorem verify_depth (wl : DicewareWordList.t) :
  DicewareWordList.no_words wl = false ->
  1 <= DicewareWordList.num_dice wl ->
  2 <= DicewareWordList.dice_sides wl <= 9 ->
  (exists r, forall depth,
      (Z.to_nat (DicewareWordList.num_dice wl) <= depth)%nat ->
      DicewareWordList.verify wl depth = Some r) /\
  (forall depth,
      (depth < Z.to_nat (DicewareWordList.num_dice wl))%nat ->
      DicewareWordList.verify wl depth = None).
Proof.
  intros Hw Hn Hs. unfold DicewareWordList.verify. rewrite Hw. split.
  - destruct (_verify_deep_enough wl (Z.to_nat (DicewareWordList.num_dice wl))
                ltac:(lia) "") as [r Hr].
    + change (len "") with 0. lia.
    + lia.
    + exists r. intros depth Hd.
      apply (_verify_mono_le wl _ depth "" r Hd Hr).
  - intros depth Hd. apply _verify_too_shallow; [lia|].
    change (len "") with 0. rewrite Z.sub_0_r. exact Hd.
Qed.

Lemma verify_depth_witness :
  DicewareWordList.no_words two_sided = false /\
  1 <= DicewareWordList.num_dice two_sided /\
  2 <= DicewareWordList.dice_sides two_sided <= 9 /\
  DicewareWordList.verify two_sided 2 = None.
Proof.
  assert (H1 : DicewareWordList.no_words two_sided = false)
    by (vm_compute; reflexivity).
  assert (H2 : 1 <= DicewareWordList.num_dice two_sided)
    by (vm_compute; discriminate).
  assert (H3 : 2 <= DicewareWordList.dice_sides two_sided <= 9)
    by (vm_compute; split; discriminate).
  split; [exact H1|]. split; [exact H2|]. split; [exact H3|].
  apply (proj2 (verify_depth two_sided H1 H2 H3) 2%nat).
  vm_compute. lia.
Defined.

Section DirectiveFacts.

Import DicewareWordList.

(** A digit is neither of the letters an option name starts with. *)
Lemma digit_not_option_letter (c : ascii) :
  isdigit c = true ->
  Ascii.eqb (upper_char c) "D" = false /\ Ascii.eqb (upper_char c) "S" = false.
Proof.
  destruct c as [[] [] [] [] [] [] [] []]; vm_compute; intros H;
    first [discriminate H | split; reflexivity].
Qed.

(** A line cannot be an option and a word entry at once. *)
Lemma option_not_word (line name digits : string) :
  PARSE_OPTION line = Some (name, digits) -> PARSE_WORD line = None.
Proof.
  unfold PARSE_OPTION, PARSE_WORD, option_name.
  destruct line as [|c line]; [discriminate|].
  intros H. simpl span.
  destruct (isdigit c) eqn:Hd; [|reflexivity].
  destruct (digit_not_option_letter c Hd) as [HD HS].
  simpl in H. rewrite HD, HS in H. discriminate H.
Qed.

(** The name group of an option, in upper case. *)
Lemma literal_nocase_upper (lit s m r : string) :
  literal_nocase lit s = Some (m, r) -> upper m = lit.
Proof.
  revert s m r. induction lit as [|k lit IH]; intros s m r; simpl.
  - intros H. inversion H. reflexivity.
  - destruct s as [|c s]; [discriminate|].
    destruct (Ascii.eqb_spec (upper_char c) k) as [<-|]; [|discriminate].
    destruct (literal_nocase lit s) as [[m' r']|] eqn:Hl; [|discriminate].
    intros H. inversion H; subst. simpl. rewrite (IH _ _ _ Hl). reflexivity.
Qed.

Lemma option_name_upper (line name digits : string) :
  PARSE_OPTION line = Some (name, digits) ->
  upper name = "DICE" \/ upper name = "SIDES".
Proof.
  unfold PARSE_OPTION, option_name.
  destruct (literal_nocase "DICE" line) as [[m r]|] eqn:HD.
  - intros H. left.
    assert (name = m) as ->; [|eapply literal_nocase_upper; eauto].
    repeat case_match; simplify_eq; reflexivity.
  - destruct (literal_nocase "SIDES" line) as [[m r]|] eqn:HS; [|discriminate].
    intros H. right.
    assert (name = m) as ->; [|eapply literal_nocase_upper; eauto].
    repeat case_match; simplify_eq; reflexivity.
Qed.

Lemma strip_empty_not_option (line : string) :
  is_empty line = true -> PARSE_OPTION line = None.
Proof. destruct line; [reflexivity | discriminate]. Qed.

(** What one turn of the loop does with an option line. *)
Lemma load_line_option (wl : t) (found_words : bool) (raw name digits : string) :
  PARSE_OPTION (strip raw) = Some (name, digits) ->
  load_line (wl, found_words) raw =
    if found_words then (wl, true)
    else if String.eqb (upper name) "DICE"
         then (set_num_dice (int digits) wl, false)
         else (set_dice_sides (int digits) wl, false).
Proof.
  intros Hopt. unfold load_line.
  destruct (is_empty (strip raw)) eqn:He.
  { rewrite (strip_empty_not_option _ He) in Hopt. discriminate. }
  rewrite (option_not_word _ _ _ Hopt), Hopt.
  destruct found_words; [reflexivity|]. simpl negb. cbv iota.
  destruct (option_name_upper _ _ _ Hopt) as [-> | ->]; reflexivity.
Qed.

(** What one turn of the loop does with any other line. *)
Lemma load_line_no_option (st : t * bool) (raw : string) :
  PARSE_OPTION (strip raw) = None ->
  num_dice (fst (load_line st raw)) = num_dice (fst st) /\
  dice_sides (fst (load_line st raw)) = dice_sides (fst st).
Proof.
  intros Hopt. destruct st as [wl fw]. unfold load_line. rewrite Hopt.
  repeat case_match; simplify_eq; simpl; auto.
Qed.

(** [found_words] after a scan: some line had the shape of a word entry. *)
Lemma load_line_found (st : t * bool) (raw : string) :
  snd (load_line st raw) = snd st || word_shaped raw.
Proof.
  destruct st as [wl fw]. unfold load_line, word_shaped.
  destruct (is_empty (strip raw)) eqn:He.
  - destruct (strip raw); [|discriminate]. simpl. rewrite orb_false_r.
    reflexivity.
  - destruct (PARSE_WORD (strip raw)) as [[roll word]|].
    + simpl. rewrite orb_true_r. reflexivity.
    + rewrite orb_false_r.
      repeat case_match; simplify_eq; simpl; auto.
Qed.

Lemma fold_found (l : list string) (st : t * bool) :
  snd (fold_left load_line l st) = snd st || existsb word_shaped l.
Proof.
  revert st. induction l as [|raw l IH]; intros st; simpl.
  - rewrite orb_false_r. reflexivity.
  - rewrite IH, load_line_found, orb_assoc. reflexivity.
Qed.

Lemma scan_found (wl : t) (wordlist : list string) :
  snd (scan wl wordlist) = existsb word_shaped wordlist.
Proof. unfold scan. rewrite fold_found. reflexivity. Qed.

Lemma fold_no_option (l : list string) :
  Forall (fun raw => PARSE_OPTION (strip raw) = None) l ->
  forall st,
    num_dice (fst (fold_left load_line l st)) = num_dice (fst st) /\
    dice_sides (fst (fold_left load_line l st)) = dice_sides (fst st).
Proof.
  induction 1 as [|raw l Hraw _ IH]; intros st; simpl; [auto|].
  destruct (IH (load_line st raw)) as [-> ->].
  apply load_line_no_option, Hraw.
Qed.

Lemma scan_snoc (wl : t) (pre : list string) (raw : string) :
  scan wl (pre ++ [raw]) = load_line (scan wl pre) raw.
Proof. unfold scan. rewrite fold_left_app. reflexivity. Qed.

End DirectiveFacts.

(** C5. During [load], a line that matches [PARSE_OPTION] names [DICE] or
    [SIDES] (in any letter case).  If no earlier line of the scan has the
    shape of a word entry, the line sets [num_dice] respectively
    [dice_sides] to its number and changes nothing else; if some earlier
    line has that shape, whether or not its roll was valid and stored,
    the line changes nothing at all. *)
Theorem option_only_before_words
    (wl : DicewareWordList.t) (pre : list string) (raw name digits : string) :
  PARSE_OPTION (strip raw) = Some (name, digits) ->
  (upper name = "DICE" \/ upper name = "SIDES") /\
  (existsb word_shaped pre = false ->
   DicewareWordList.scan wl (pre ++ [raw]) =
     (if String.eqb (upper name) "DICE"
      then DicewareWordList.set_num_dice (int digits)
             (fst (DicewareWordList.scan wl pre))
      else DicewareWordList.set_dice_sides (int digits)
             (fst (DicewareWordList.scan wl pre)),
      false)) /\
  (existsb word_shaped pre = true ->
   DicewareWordList.scan wl (pre ++ [raw]) = DicewareWordList.scan wl pre).
Proof.
  intros Hopt. split; [eapply option_name_upper; eauto|].
  pose proof (scan_found wl pre) as Hfound.
  rewrite scan_snoc.
  destruct (DicewareWordList.scan wl pre) as [wl1 fw] eqn:Hscan.
  simpl in Hfound. rewrite (load_line_option _ _ _ _ _ Hopt).
  split; intros Hpre; rewrite Hpre in Hfound; subst fw; simpl.
  - destruct (String.eqb (upper name) "DICE"); reflexivity.
  - reflexivity.
Qed.

Lemma option_only_before_words_witness :
  PARSE_OPTION (strip "dice : 2") = Some ("dice", "2") /\
  existsb word_shaped ["SIDES=4"; "123 x"] = true /\
  DicewareWordList.scan DicewareWordList.new (["SIDES=4"; "123 x"] ++ ["dice : 2"])
    = DicewareWordList.scan DicewareWordList.new ["SIDES=4"; "123 x"].
Proof.
  split; [reflexivity|]. split; [reflexivity|].
  exact (proj2 (proj2 (option_only_before_words DicewareWordList.new
                         ["SIDES=4"; "123 x"] "dice : 2" "dice" "2" eq_refl))
           eq_refl).
Defined.

(** C10. [load] starts from a fresh dictionary, so what [words] held
    before the call has no effect on the object it leaves; and it does not
    reset [num_dice] or [dice_sides]: when no line of the input matches
    [PARSE_OPTION], both keep the values they had before the call. *)
Theorem load_keeps_configuration
    (wl : DicewareWordList.t) (wordlist : list string) :
  (forall previous,
      DicewareWordList.load (DicewareWordList.set_words previous wl) wordlist
      = DicewareWordList.load wl wordlist) /\
  (DicewareWordList.load wl [] =
     match Dice.__init__ (DicewareWordList.dice_sides wl) with
     | Ok d => (DicewareWordList.mk (DicewareWordList.dice_sides wl)
                  (DicewareWordList.num_dice wl) (Some d) (Some ∅), Ok tt)
     | Raise e => (DicewareWordList.mk (DicewareWordList.dice_sides wl)
                     (DicewareWordList.num_dice wl)
                     (DicewareWordList.dice wl) (Some ∅), Raise e)
     end) /\
  (Forall (fun raw => PARSE_OPTION (strip raw) = None) wordlist ->
   DicewareWordList.num_dice (fst (DicewareWordList.load wl wordlist))
     = DicewareWordList.num_dice wl /\
   DicewareWordList.dice_sides (fst (DicewareWordList.load wl wordlist))
     = DicewareWordList.dice_sides wl).
Proof.
  split; [reflexivity|]. split.
  { unfold DicewareWordList.load. simpl.
    destruct (Dice.__init__ (DicewareWordList.dice_sides wl)); reflexivity. }
  intros Hno.
  assert (Hscan :
    DicewareWordList.num_dice (fst (DicewareWordList.scan wl wordlist))
      = DicewareWordList.num_dice wl /\
    DicewareWordList.dice_sides (fst (DicewareWordList.scan wl wordlist))
      = DicewareWordList.dice_sides wl).
  { unfold DicewareWordList.scan.
    apply (fold_no_option wordlist Hno
             (DicewareWordList.set_words (Some ∅) wl, false)). }
  unfold DicewareWordList.load.
  destruct (Dice.__init__ _); simpl; exact Hscan.
Qed.

Lemma load_keeps_configuration_witness :
  Forall (fun raw => PARSE_OPTION (strip raw) = None) ["11 x"; "12 y"] /\
  DicewareWordList.num_dice
    (fst (DicewareWordList.load
            (fst (DicewareWordList.load DicewareWordList.new
                    ["DICE=2"; "SIDES=4"; "11 a"]))
            ["11 x"; "12 y"]))
  = DicewareWordList.num_dice
      (fst (DicewareWordList.load DicewareWordList.new
              ["DICE=2"; "SIDES=4"; "11 a"])).
Proof.
  assert (H : Forall (fun raw => PARSE_OPTION (strip raw) = None)
                ["11 x"; "12 y"])
    by (repeat constructor).
  split; [exact H|].
  exact (proj1 (proj2 (proj2 (load_keeps_configuration
                  (fst (DicewareWordList.load DicewareWordList.new
                          ["DICE=2"; "SIDES=4"; "11 a"]))
                  ["11 x"; "12 y"])) H)).
Defined.


Section EntropyFacts.

Import DicewareWordList.

Lemma bind_Some {A B : Type} (m : Entropy A) (k : A -> Entropy B)
    (e e2 : list byte) (b : B) :
  bind m k e = Some (b, e2) ->
  exists a e1, m e = Some (a, e1) /\ k a e1 = Some (b, e2).
Proof.
  unfold bind. destruct (m e) as [[a e1]|]; [eauto | discriminate].
Qed.

Lemma replicate_m_length {A : Type} (m : Entropy A) (n : nat) :
  forall e l e', replicate_m n m e = Some (l, e') -> length l = n.
Proof.
  induction n as [|n IH]; intros e l e' H; simpl in H.
  - inversion H. reflexivity.
  - apply bind_Some in H as (x & e1 & _ & H).
    apply bind_Some in H as (xs & e2 & Hxs & H).
    inversion H; subst. simpl. f_equal. eapply IH, Hxs.
Qed.

Lemma usable_cons (d : Dice.t) (b : byte) (e : list byte) :
  usable d (b :: e) =
    if Dice.byte_value b >? Dice.ceiling d then usable d e else S (usable d e).
Proof.
  unfold usable. simpl. unfold accepts at 1. rewrite roll_cons.
  destruct (Dice.byte_value b >? Dice.ceiling d); reflexivity.
Qed.

Lemma consumes_ret {A : Type} (d : Dice.t) (a : A) : consumes d 0 (ret a).
Proof. intros e _. exists a, e. split; [reflexivity | lia]. Qed.

Lemma consumes_bind {A B : Type} (d : Dice.t) (k1 k2 : nat)
    (m : Entropy A) (f : A -> Entropy B) :
  consumes d k1 m -> (forall a, consumes d k2 (f a)) ->
  consumes d (k1 + k2) (bind m f).
Proof.
  intros Hm Hf e He.
  destruct (Hm e ltac:(lia)) as (a & e1 & Hma & He1).
  destruct (Hf a e1 ltac:(lia)) as (b & e2 & Hfb & He2).
  exists b, e2. unfold bind. rewrite Hma. split; [exact Hfb | lia].
Qed.

Lemma consumes_eq {A : Type} (d : Dice.t) (k k' : nat) (m : Entropy A) :
  k = k' -> consumes d k m -> consumes d k' m.
Proof. intros ->. auto. Qed.

Lemma consumes_replicate {A : Type} (d : Dice.t) (k n : nat) (m : Entropy A) :
  consumes d k m -> consumes d (n * k) (replicate_m n m).
Proof.
  intros Hm. induction n as [|n IH]; [apply consumes_ret|].
  simpl. apply consumes_bind; [exact Hm|]. intros x.
  apply (consumes_eq d (n * k + 0)); [lia|].
  apply consumes_bind; [exact IH|]. intros xs. apply consumes_ret.
Qed.

(** A roll returns on the first usable byte. *)
Lemma consumes_roll (d : Dice.t) : consumes d 1 (Dice.roll d).
Proof.
  intros e. induction e as [|b e IH]; intros He.
  - unfold usable in He. simpl in He. lia.
  - rewrite usable_cons in *. rewrite roll_cons.
    destruct (Dice.byte_value b >? Dice.ceiling d).
    + apply IH, He.
    + eexists _, e. split; [reflexivity | lia].
Qed.

Lemma consumes_roll_dice (wl : t) (d : Dice.t) :
  consumes d (Z.to_nat (num_dice wl)) (_roll_dice wl d).
Proof.
  unfold _roll_dice.
  apply (consumes_eq d (Z.to_nat (num_dice wl) * 1 + 0)); [lia|].
  apply consumes_bind; [apply consumes_replicate, consumes_roll|].
  intros sides. apply consumes_ret.
Qed.

End EntropyFacts.

(** C6. [get_password] has no failing path.  When [dice] is unset or
    [words] is unset or empty it returns a password with no rolls and no
    words, reading no entropy.  Otherwise, whenever it returns, [rolls]
    and [words] both have [num_words] elements and [words] holds, index
    by index, what [words.get] gives for the roll, [None] for an absent
    key; and it does return once the entropy source has delivered
    [num_words * num_dice] usable bytes. *)
Theorem get_password_total
    (wl : DicewareWordList.t) (num_words : Z) (entropy : list byte) :
  0 <= num_words ->
  (DicewareWordList.dice wl = None \/ DicewareWordList.no_words wl = true ->
   DicewareWordList.get_password wl num_words entropy
     = Some (DicewarePassword.mk [] [], entropy)) /\
  (forall d,
      DicewareWordList.dice wl = Some d ->
      DicewareWordList.no_words wl = false ->
      (forall p rest,
          DicewareWordList.get_password wl num_words entropy = Some (p, rest) ->
          length (DicewarePassword.rolls p) = Z.to_nat num_words /\
          length (DicewarePassword.words p) = Z.to_nat num_words /\
          forall i roll,
            DicewarePassword.rolls p !! i = Some roll ->
            DicewarePassword.words p !! i
              = Some (match DicewareWordList.words wl with
                      | Some m => m !! roll
                      | None => None
                      end)) /\
      ((Z.to_nat num_words * Z.to_nat (DicewareWordList.num_dice wl)
          <= usable d entropy)%nat ->
       exists p rest,
         DicewareWordList.get_password wl num_words entropy = Some (p, rest))).
Proof.
  intros Hn. unfold DicewareWordList.get_password. split.
  - intros [-> | Hw]; [reflexivity|].
    rewrite Hw. destruct (DicewareWordList.dice wl); reflexivity.
  - intros d -> ->. split.
    + intros p rest H.
      apply bind_Some in H as (rolls & e1 & Hrolls & H).
      inversion H; subst; clear H. simpl.
      apply replicate_m_length in Hrolls.
      rewrite length_map. split; [exact Hrolls|]. split; [exact Hrolls|].
      intros i roll Hi. rewrite list_lookup_fmap, Hi. reflexivity.
    + intros He.
      destruct (consumes_replicate d _ (Z.to_nat num_words) _
                  (consumes_roll_dice wl d) entropy He)
        as (rolls & e1 & Hrolls & _).
      unfold bind. rewrite Hrolls. eauto.
Qed.

Section TenSides.

Import DicewareWordList.

Lemma for_each_ext_in {A : Type} (f g : A -> option (result unit)) (l : list A) :
  (forall x, In x l -> f x = g x) -> for_each f l = for_each g l.
Proof.
  induction l as [|x l IH]; intros H; simpl; [reflexivity|].
  rewrite (H x (or_introl eq_refl)).
  rewrite IH by (intros y Hy; apply H; right; exact Hy).
  reflexivity.
Qed.

Lemma for_each_Ok_inv {A : Type} (f : A -> option (result unit)) (l : list A) :
  for_each f l = Some (Ok tt) -> forall x, In x l -> f x = Some (Ok tt).
Proof.
  induction l as [|y l IH]; intros H x Hx; [destruct Hx|].
  simpl in H. destruct (f y) as [[[]|e]|] eqn:Hy; try discriminate.
  destruct Hx as [<-|Hx]; [exact Hy | apply IH; assumption].
Qed.

(** With ten sides or more, [_verify] never returns normally: where the
    one-character sides complete a key, [str 10] makes a key one character
    too long, and the call made for it has no end. *)
Lemma _verify_ten_sides_never_ok (wl : t) (depth : nat) :
  10 <= dice_sides wl ->
  forall prefix, _verify wl depth prefix <> Some (Ok tt).
Proof.
  intros Hs. induction depth as [|depth IH]; intros prefix; [discriminate|].
  rewrite _verify_S. intros H.
  pose proof (for_each_Ok_inv _ _ H 1 (in_range 1 (dice_sides wl + 1) 1 ltac:(lia))) as H1.
  pose proof (for_each_Ok_inv _ _ H 10 (in_range 1 (dice_sides wl + 1) 10 ltac:(lia))) as H10.
  simpl in H1, H10.
  assert (L1 : len (String.append prefix (str 1)) = len prefix + 1)
    by (rewrite len_app; reflexivity).
  assert (L10 : len (String.append prefix (str 10)) = len prefix + 2)
    by (rewrite len_app; reflexivity).
  destruct (Z.eqb_spec (len (String.append prefix (str 1))) (num_dice wl));
    [|exact (IH _ H1)].
  destruct (Z.eqb_spec (len (String.append prefix (str 10))) (num_dice wl));
    [lia | exact (IH _ H10)].
Qed.

Lemma verify_ten_sides_never_ok (wl : t) (depth : nat) :
  10 <= dice_sides wl -> verify wl depth <> Some (Ok tt).
Proof.
  intros Hs. unfold verify. destruct (no_words wl); [discriminate|].
  apply _verify_ten_sides_never_ok, Hs.
Qed.

Lemma ten_sided_loaded :
  DicewareWordList.load DicewareWordList.new ten_sided_lines
    = (ten_sided, Ok tt) /\
  dice_sides ten_sided = 10 /\ num_dice ten_sided = 1 /\
  dice ten_sided = Some (Dice.mk 10 249) /\
  no_words ten_sided = false.
Proof. vm_compute. repeat split. Qed.

End TenSides.

Section TenSidedList.

Import DicewareWordList.

Lemma ten_sided_leaf (side : Z) (depth : nat) :
  1 <= side <= 9 ->
  (let roll := String.append "" (str side) in
   if len roll =? num_dice ten_sided then
     if no_word ten_sided roll then
       Some (Raise (DicewareWordListException (msg_missing roll)))
     else Some (Ok tt)
   else _verify ten_sided depth roll) = Some (Ok tt).
Proof.
  intros H.
  assert (Hc : side = 1 \/ side = 2 \/ side = 3 \/ side = 4 \/ side = 5 \/
               side = 6 \/ side = 7 \/ side = 8 \/ side = 9) by lia.
  repeat (destruct Hc as [->|Hc]; [vm_compute; reflexivity|]).
  subst. vm_compute. reflexivity.
Qed.

(** Every key that [_is_valid_roll] accepts has a word in [ten_sided]. *)
Lemma ten_sided_covered (roll : string) :
  string_forallb isdigit roll = true ->
  _is_valid_roll ten_sided roll = true ->
  no_word ten_sided roll = false.
Proof.
  destruct roll as [|c [|c' roll]].
  - intros _ H. vm_compute in H. discriminate H.
  - destruct c as [[] [] [] [] [] [] [] []]; vm_compute; intros Hd Hv;
      first [discriminate Hd | discriminate Hv | reflexivity].
  - intros _ H. unfold _is_valid_roll in H.
    replace (len (String c (String c' roll)) =? num_dice ten_sided)
      with false in H; [discriminate H|].
    symmetry. apply Z.eqb_neq. unfold len. simpl String.length.
    change (num_dice ten_sided) with 1. lia.
Qed.

End TenSidedList.

(** C4, at the word list [ten_sided] (one die, ten sides, a word for each
    of the keys 1 to 9): the list is loaded, every key that
    [_is_valid_roll] accepts has a non-empty word, and yet [verify] neither
    returns nor raises the word-list exception: after the nine keys it
    builds the key of side 10, which is longer than a roll, and from there
    on [_verify] calls itself without end, whatever nesting is allowed. *)
Theorem verify_ten_sided_no_end :
  DicewareWordList.no_words ten_sided = false /\
  (forall roll,
      string_forallb isdigit roll = true ->
      DicewareWordList._is_valid_roll ten_sided roll = true ->
      DicewareWordList.no_word ten_sided roll = false) /\
  forall depth, DicewareWordList.verify ten_sided depth = None.
Proof.
  split; [vm_compute; reflexivity|]. split; [exact ten_sided_covered|].
  intros depth. unfold DicewareWordList.verify.
  replace (DicewareWordList.no_words ten_sided) with false
    by (vm_compute; reflexivity).
  destruct depth as [|depth]; [reflexivity|].
  rewrite _verify_S.
  change (DicewareWordList.dice_sides ten_sided) with 10.
  rewrite (for_each_ext_in _
             (fun side => if side <? 10 then Some (Ok tt) else None)).
  - vm_compute. reflexivity.
  - intros side Hin.
    apply list_elem_of_In, elem_of_seqZ in Hin.
    destruct (Z.ltb_spec side 10) as [Hlt|Hge].
    + apply ten_sided_leaf. lia.
    + assert (side = 10) as -> by lia.
      change (DicewareWordList._verify ten_sided depth "10" = None).
      apply _verify_overlong; vm_compute; discriminate.
Qed.

Lemma verify_ten_sided_no_end_witness :
  string_forallb isdigit "7" = true /\
  DicewareWordList._is_valid_roll ten_sided "7" = true /\
  DicewareWordList.no_word ten_sided "7" = false /\
  DicewareWordList.verify ten_sided 1000 = None.
Proof.
  split; [reflexivity|]. split; [vm_compute; reflexivity|]. split.
  - exact (proj1 (proj2 verify_ten_sided_no_end) "7" eq_refl eq_refl).
  - exact (proj2 (proj2 verify_ten_sided_no_end) 1000%nat).
Defined.

(** C3, at the word list [ten_sided]: when the entropy source delivers
    the byte 9, [get_password] for one word rolls side 10 and returns the
    roll key [10], which has two characters for one die, which
    [_is_valid_roll] rejects, and for which no word can be stored. *)
Theorem roll_key_ten_sided :
  DicewareWordList.get_password ten_sided 1 [x09]
    = Some (DicewarePassword.mk ["10"] [None], []) /\
  DicewareWordList.num_dice ten_sided = 1 /\
  len "10" = 2 /\
  DicewareWordList._is_valid_roll ten_sided "10" = false.
Proof. vm_compute. repeat split. Qed.

Lemma get_password_total_witness :
  0 <= 3 /\
  DicewareWordList.dice DicewareWordList.new = None /\
  DicewareWordList.get_password DicewareWordList.new 3 [x07; xff]
    = Some (DicewarePassword.mk [] [], [x07; xff]).
Proof.
  assert (H : 0 <= 3) by lia.
  split; [exact H|]. split; [reflexivity|].
  exact (proj1 (get_password_total DicewareWordList.new 3 [x07; xff] H)
           (or_introl eq_refl)).
Defined.

(** * One-character sides

    With at most nine sides every side is written with one character, and
    the word list does what its parts expect of each other. *)

Section SingleDigitSides.

Import DicewareWordList.

Lemma find_app {A : Type} (P : A -> bool) (l1 l2 : list A) :
  List.find P (l1 ++ l2) =
    match List.find P l1 with
    | Some x => Some x
    | None => List.find P l2
    end.
Proof.
  induction l1 as [|x l1 IH]; simpl; [reflexivity|].
  destruct (P x); [reflexivity | exact IH].
Qed.

Lemma for_each_report {A : Type} (P : string -> bool)
    (body : A -> option (result unit)) (keys : A -> list string) (l : list A) :
  (forall x, In x l -> body x = report (List.find P (keys x))) ->
  for_each body l = report (List.find P (flat_map keys l)).
Proof.
  induction l as [|x l IH]; intros H; simpl; [reflexivity|].
  rewrite (H x (or_introl eq_refl)), find_app.
  destruct (List.find P (keys x)); simpl; [reflexivity|].
  apply IH. intros y Hy. apply H. right. exact Hy.
Qed.

(** [_verify] looks for the first key of the enumeration without a word. *)
Lemma _verify_enumerates (wl : t) (k : nat) :
  dice_sides wl <= 9 ->
  forall prefix,
    num_dice wl - len prefix = Z.of_nat k -> (1 <= k)%nat ->
    _verify wl k prefix =
      report (List.find (no_word wl)
                (map (String.append prefix) (all_rolls (dice_sides wl) k))).
Proof.
  intros Hs. induction k as [|k IH]; intros prefix Hk Hpos; [lia|].
  rewrite _verify_S. simpl all_rolls. rewrite flat_map_concat_map.
  rewrite concat_map, map_map, <- flat_map_concat_map.
  apply for_each_report. intros side Hin.
  apply list_elem_of_In, elem_of_seqZ in Hin. simpl.
  assert (Hroll : len (String.append prefix (str side)) = len prefix + 1)
    by (rewrite len_app, len_str_digit by lia; reflexivity).
  rewrite map_map.
  destruct (Z.eqb_spec (len (String.append prefix (str side))) (num_dice wl))
    as [Heq|Hne].
  - assert (k = 0%nat) as -> by lia. simpl.
    rewrite append_empty_r.
    destruct (no_word wl (String.append prefix (str side))); reflexivity.
  - rewrite IH by lia. f_equal. f_equal.
    apply map_ext. intros x. rewrite append_assoc. reflexivity.
Qed.

(** [verify] on a loaded list with at least one die and at most nine
    sides: it returns when every key of the enumeration has a non-empty
    word, and otherwise raises for the first key that has none. *)
Lemma verify_enumerates (wl : t) (depth : nat) :
  no_words wl = false -> 1 <= num_dice wl -> dice_sides wl <= 9 ->
  (Z.to_nat (num_dice wl) <= depth)%nat ->
  verify wl depth =
    report (List.find (no_word wl)
              (all_rolls (dice_sides wl) (Z.to_nat (num_dice wl)))).
Proof.
  intros Hw Hn Hs Hd. unfold verify. rewrite Hw.
  assert (H0 : num_dice wl - len "" = Z.of_nat (Z.to_nat (num_dice wl)))
    by (change (len "") with 0; lia).
  pose proof (_verify_enumerates wl _ Hs "" H0 ltac:(lia)) as H.
  rewrite (map_ext _ (fun x => x)), map_id in H by reflexivity.
  destruct (List.find _ _); simpl report in *;
    apply (_verify_mono_le wl _ depth "" _ Hd H).
Qed.

End SingleDigitSides.

Section RollKeys.

Import DicewareWordList.

Lemma int_char (c : ascii) : int (String c EmptyString) = digit_value c.
Proof. reflexivity. Qed.

Lemma side_char_iff (sides : Z) (c : ascii) :
  side_char sides c = true <-> 1 <= digit_value c <= sides.
Proof.
  unfold side_char. rewrite bool_decide_eq_true, int_char.
  unfold range. rewrite elem_of_seqZ. lia.
Qed.

(** A side below ten is written as the one digit with its value. *)
Lemma str_digit (side : Z) :
  1 <= side <= 9 ->
  exists c, str side = String c EmptyString /\
            isdigit c = true /\ digit_value c = side.
Proof.
  intros H.
  assert (Hc : side = 1 \/ side = 2 \/ side = 3 \/ side = 4 \/ side = 5 \/
               side = 6 \/ side = 7 \/ side = 8 \/ side = 9) by lia.
  repeat (destruct Hc as [->|Hc];
          [eexists; split; [reflexivity|]; split; reflexivity|]).
  subst. eexists; split; [reflexivity|]; split; reflexivity.
Qed.

Lemma digit_str (c : ascii) :
  isdigit c = true -> str (digit_value c) = String c EmptyString.
Proof.
  destruct c as [[] [] [] [] [] [] [] []]; vm_compute; intros H;
    first [discriminate H | reflexivity].
Qed.

Lemma digit_value_range (c : ascii) :
  isdigit c = true -> 0 <= digit_value c <= 9.
Proof.
  unfold isdigit, digit_value. intros H.
  apply andb_true_iff in H as [H1 H2].
  apply Z.leb_le in H1, H2. lia.
Qed.

(** The enumeration holds exactly the keys of [n] digits between 1 and
    [sides]. *)
Lemma in_all_rolls (sides : Z) (n : nat) :
  sides <= 9 ->
  forall roll,
    In roll (all_rolls sides n) <->
    String.length roll = n /\
    string_forallb isdigit roll = true /\
    string_forallb (side_char sides) roll = true.
Proof.
  intros Hs. induction n as [|n IH]; intros roll.
  - simpl. split.
    + intros [<-|[]]. repeat split.
    + intros (Hlen & _ & _). destruct roll; [auto | discriminate].
  - simpl all_rolls. rewrite in_flat_map. split.
    + intros (side & Hside & Hin).
      apply list_elem_of_In, elem_of_seqZ in Hside.
      apply in_map_iff in Hin as (x & <- & Hx).
      apply IH in Hx as (Hlen & Hdig & Hval).
      destruct (str_digit side ltac:(lia)) as (c & -> & Hc & Hv).
      rewrite append_cons. change (String.append "" x) with x. simpl.
      rewrite Hlen, Hc, Hdig, Hval.
      replace (side_char sides c) with true; [repeat split|].
      symmetry. apply side_char_iff. lia.
    + intros (Hlen & Hdig & Hval).
      destruct roll as [|c roll]; [discriminate|].
      simpl in Hlen, Hdig, Hval.
      apply andb_true_iff in Hdig as [Hc Hdig].
      apply andb_true_iff in Hval as [Hv Hval].
      apply side_char_iff in Hv.
      exists (digit_value c). split.
      * apply in_range. lia.
      * rewrite (digit_str c Hc). apply in_map_iff.
        exists roll. split; [reflexivity|].
        apply IH. injection Hlen as Hlen. repeat split; auto.
Qed.

(** The keys [verify] enumerates are the keys [_is_valid_roll] accepts. *)
Lemma all_rolls_valid (wl : t) (roll : string) :
  0 <= num_dice wl -> dice_sides wl <= 9 ->
  In roll (all_rolls (dice_sides wl) (Z.to_nat (num_dice wl))) <->
  string_forallb isdigit roll = true /\ _is_valid_roll wl roll = true.
Proof.
  intros Hn Hs. rewrite (in_all_rolls _ _ Hs). unfold _is_valid_roll, len.
  fold (side_char (dice_sides wl)).
  destruct (Z.eqb_spec (Z.of_nat (String.length roll)) (num_dice wl));
    simpl; split; intros H; try tauto.
  - split; [lia | tauto].
  - destruct H as (Hlen & _). lia.
  - destruct H as (_ & H). discriminate H.
Qed.

End RollKeys.

Section GeneratedKeys.

Import DicewareWordList.

Lemma roll_in_range (sides : Z) (d : Dice.t) (e e' : list byte) (r : Z) :
  Dice.__init__ sides = Ok d -> Dice.roll d e = Some (r, e') -> 1 <= r <= sides.
Proof.
  intros Hd Hroll. destruct (init_inv _ _ Hd) as [Hs ->].
  destruct (roll_inv _ _ _ _ Hroll) as (sk & b & _ & _ & _ & ->).
  unfold Dice.num_sides.
  pose proof (Z.mod_pos_bound (Dice.byte_value b) sides ltac:(lia)). lia.
Qed.

Lemma replicate_m_Forall {A : Type} (P : A -> Prop) (m : Entropy A) (n : nat) :
  (forall e a e', m e = Some (a, e') -> P a) ->
  forall e l e', replicate_m n m e = Some (l, e') -> Forall P l.
Proof.
  intros Hm. induction n as [|n IH]; intros e l e' H; simpl in H.
  - inversion H. constructor.
  - apply bind_Some in H as (x & e1 & Hx & H).
    apply bind_Some in H as (xs & e2 & Hxs & H).
    inversion H; subst. constructor; [eapply Hm | eapply IH]; eauto.
Qed.

Lemma string_forallb_app (P : ascii -> bool) (a b : string) :
  string_forallb P (String.append a b)
    = string_forallb P a && string_forallb P b.
Proof.
  induction a as [|c a IH]; [reflexivity|].
  rewrite append_cons. simpl. rewrite IH, andb_assoc. reflexivity.
Qed.

Lemma join_str_digits (sides : Z) (l : list Z) :
  sides <= 9 -> Forall (fun r => 1 <= r <= sides) l ->
  len (join (map str l)) = Z.of_nat (length l) /\
  string_forallb isdigit (join (map str l)) = true /\
  string_forallb (side_char sides) (join (map str l)) = true.
Proof.
  intros Hs. induction 1 as [|r l Hr _ IH]; [repeat split|].
  destruct IH as (Hlen & Hdig & Hval).
  destruct (str_digit r ltac:(lia)) as (c & Hc & Hd & Hv).
  simpl map. simpl join. rewrite len_app, !string_forallb_app, Hc.
  rewrite Hlen, Hdig, Hval. simpl. rewrite Hd.
  replace (side_char sides c) with true
    by (symmetry; apply side_char_iff; lia).
  repeat split. unfold len. simpl. lia.
Qed.

(** A successful [load] leaves a die built for [dice_sides]. *)
Lemma load_ok_dice (wl wl' : t) (wordlist : list string) :
  load wl wordlist = (wl', Ok tt) ->
  exists d, dice wl' = Some d /\ Dice.__init__ (dice_sides wl') = Ok d.
Proof.
  unfold load.
  destruct (Dice.__init__ (dice_sides (fst (scan wl wordlist)))) as [d|e] eqn:Hd;
    intros H; inversion H; subst.
  exists d. split; [reflexivity | exact Hd].
Qed.

(** With at most nine sides, every roll key that [get_password] returns
    is one that [_is_valid_roll] accepts. *)
Lemma get_password_rolls_valid
    (wl : t) (d : Dice.t) (num_words : Z) (e e' : list byte)
    (p : DicewarePassword.t) :
  dice wl = Some d -> Dice.__init__ (dice_sides wl) = Ok d ->
  dice_sides wl <= 9 -> 0 <= num_dice wl ->
  get_password wl num_words e = Some (p, e') ->
  Forall (fun roll => string_forallb isdigit roll = true /\
                      _is_valid_roll wl roll = true)
         (DicewarePassword.rolls p).
Proof.
  intros Hdice Hd Hs Hn. unfold get_password. rewrite Hdice.
  destruct (no_words wl).
  { intros H. inversion H. constructor. }
  intros H. apply bind_Some in H as (rolls & e1 & Hrolls & H).
  inversion H; subst; clear H. simpl.
  eapply replicate_m_Forall; [|exact Hrolls].
  clear Hrolls. intros e2 roll e3 Hroll. unfold _roll_dice in Hroll.
  apply bind_Some in Hroll as (sides & e4 & Hsides & H).
  inversion H; subst; clear H.
  pose proof (replicate_m_length _ _ _ _ _ Hsides) as Hlen.
  apply (replicate_m_Forall (fun r => 1 <= r <= dice_sides wl)) in Hsides;
    [|intros ? ? ? Hr; exact (roll_in_range _ _ _ _ _ Hd Hr)].
  destruct (join_str_digits _ _ Hs Hsides) as (Hl & Hdig & Hval).
  split; [exact Hdig|]. unfold _is_valid_roll.
  fold (side_char (dice_sides wl)). rewrite Hval.
  replace (len (join (map str sides)) =? num_dice wl) with true;
    [reflexivity|].
  symmetry. apply Z.eqb_eq. rewrite Hl, Hlen. lia.
Qed.

End GeneratedKeys.

(** * The shape of the lines the patterns accept *)

Section LineShapes.









End LineShapes.

(** * Further properties of [load] *)

Section StripFacts.

Lemma span_spec (p : ascii -> bool) (s a b : string) :
  span p s = (a, b) ->
  s = String.append a b /\ string_forallb p a = true /\ stops p b = true.
Proof.
  revert a b. induction s as [|c s IH]; intros a b; simpl.
  - intros H. inversion H. repeat split.
  - destruct (p c) eqn:Hc.
    + destruct (span p s) as [a' b'] eqn:Hs. intros H. inversion H; subst.
      destruct (IH a' b eq_refl) as (-> & Ha & Hb).
      rewrite append_cons. simpl. rewrite Hc, Ha. repeat split. exact Hb.
    + intros H. inversion H; subst. simpl. rewrite Hc. repeat split.
Qed.

Lemma rstrip_spaces (b : string) :
  string_forallb isspace b = true -> rstrip b = EmptyString.
Proof.
  induction b as [|c b IH]; [reflexivity|]. simpl.
  intros H. apply andb_true_iff in H as [Hc Hb].
  rewrite (IH Hb), Hc. reflexivity.
Qed.

Lemma rstrip_app_spaces (a b : string) :
  string_forallb isspace b = true ->
  rstrip (String.append a b) = rstrip a.
Proof.
  intros Hb. induction a as [|c a IH].
  - change (String.append "" b) with b. rewrite (rstrip_spaces b Hb).
    reflexivity.
  - rewrite append_cons. simpl. rewrite IH. reflexivity.
Qed.

Lemma rstrip_length (s : string) :
  (String.length (rstrip s) <= String.length s)%nat.
Proof.
  induction s as [|c s IH]; simpl; [lia|].
  destruct (is_empty (rstrip s) && isspace c); simpl; lia.
Qed.

Lemma length_append (a b : string) :
  String.length (String.append a b) = (String.length a + String.length b)%nat.
Proof.
  induction a as [|c a IH]; [reflexivity|].
  rewrite append_cons. simpl. rewrite IH. reflexivity.
Qed.

(** A text that [rstrip] leaves alone does not end with white space. *)
Lemma rstrip_fixed_no_tail (a b : string) :
  rstrip (String.append a b) = String.append a b ->
  string_forallb isspace b = true -> b = EmptyString.
Proof.
  intros Hfix Hb. rewrite (rstrip_app_spaces a b Hb) in Hfix.
  pose proof (rstrip_length a) as Hlen.
  rewrite Hfix, length_append in Hlen.
  destruct b; [reflexivity | simpl in Hlen; lia].
Qed.

Lemma rstrip_fixed_suffix (a b : string) :
  rstrip (String.append a b) = String.append a b -> rstrip b = b.
Proof.
  induction a as [|c a IH]; [auto|].
  rewrite append_cons. simpl.
  destruct (is_empty (rstrip (String.append a b)) && isspace c);
    [discriminate|].
  intros H. injection H as H. exact (IH H).
Qed.

Lemma rstrip_idem (s : string) : rstrip (rstrip s) = rstrip s.
Proof.
  induction s as [|c s IH]; [reflexivity|]. simpl.
  destruct (is_empty (rstrip s)) eqn:He; simpl.
  - destruct (isspace c) eqn:Hc; [reflexivity|].
    simpl. destruct (rstrip s); [|discriminate]. simpl. rewrite Hc.
    reflexivity.
  - simpl. rewrite IH, He. reflexivity.
Qed.

Lemma strip_rstrip_fixed (s : string) : rstrip (strip s) = strip s.
Proof. unfold strip. apply rstrip_idem. Qed.

Lemma lstrip_fixed (s : string) : stops isspace s = true -> lstrip s = s.
Proof.
  destruct s as [|c s]; [reflexivity|]. simpl.
  intros H. apply negb_true_iff in H. rewrite H. reflexivity.
Qed.

(** What [.*?$] gives back is the text itself, up to a newline that ends
    it. *)
Lemma dots_to_end_spec (s w : string) :
  dots_to_end s = Some w ->
  s = w \/ s = String.append w (String newline EmptyString).
Proof.
  revert w. induction s as [|c s IH]; intros w; simpl.
  - intros H. inversion H. left. reflexivity.
  - destruct (is_newline c) eqn:Hc.
    + destruct s; [|discriminate]. intros H. inversion H; subst.
      right. unfold is_newline in Hc. apply Z.eqb_eq in Hc.
      change (String.append "" (String newline "")) with (String newline "").
      f_equal. unfold code in Hc.
      rewrite <- (ascii_N_embedding c). unfold newline.
      replace (N_of_ascii c) with 10%N by lia. reflexivity.
    + destruct (dots_to_end s) as [r|]; [|discriminate].
      intros H. inversion H; subst.
      destruct (IH r eq_refl) as [-> | ->]; [left | right]; reflexivity.
Qed.

End StripFacts.

Section LoadInvariant.

Import DicewareWordList.

(** The groups of a word entry matched on a stripped line. *)
Lemma PARSE_WORD_stripped (line roll word : string) :
  rstrip line = line ->
  PARSE_WORD line = Some (roll, word) ->
  is_empty roll = false /\ string_forallb isdigit roll = true /\
  is_empty word = false /\ strip word = word /\
  exists spaces,
    string_forallb isspace spaces = true /\ is_empty spaces = false /\
    line = String.append roll (String.append spaces word).
Proof.
  intros Hfix. unfold PARSE_WORD.
  destruct (span isdigit line) as [digits r1] eqn:Hd.
  destruct (is_empty digits) eqn:Hde; [discriminate|].
  destruct (span isspace r1) as [spaces r2] eqn:Hs.
  destruct (is_empty spaces) eqn:Hse; [discriminate|].
  destruct (dots_to_end r2) as [rest|] eqn:Hr; [|discriminate].
  intros H. inversion H; subst; clear H.
  destruct (span_spec _ _ _ _ Hd) as (-> & Hdig & _).
  destruct (span_spec _ _ _ _ Hs) as (-> & Hsp & Hstop).
  destruct (dots_to_end_spec _ _ Hr) as [-> | ->].
  - assert (Hne : is_empty word = false).
    { destruct word; [|reflexivity]. exfalso.
      rewrite append_empty_r in Hfix.
      rewrite (rstrip_fixed_no_tail _ _ Hfix Hsp) in Hse. discriminate. }
    split; [exact Hde|]. split; [exact Hdig|]. split; [exact Hne|]. split.
    + unfold strip. rewrite (lstrip_fixed _ Hstop).
      rewrite <- append_assoc in Hfix.
      exact (rstrip_fixed_suffix _ _ Hfix).
    + exists spaces. auto.
  - exfalso. rewrite <- !append_assoc in Hfix.
    pose proof (rstrip_fixed_no_tail _ (String newline "") Hfix eq_refl).
    discriminate.
Qed.

Lemma valid_roll_config (wl1 wl2 : t) (roll : string) :
  num_dice wl1 = num_dice wl2 -> dice_sides wl1 = dice_sides wl2 ->
  _is_valid_roll wl1 roll = _is_valid_roll wl2 roll.
Proof. unfold _is_valid_roll. intros -> ->. reflexivity. Qed.

Lemma entry_ok_config (wl1 wl2 : t) (roll word : string) :
  num_dice wl1 = num_dice wl2 -> dice_sides wl1 = dice_sides wl2 ->
  entry_ok wl1 roll word -> entry_ok wl2 roll word.
Proof.
  intros Hn Hs (H0 & H1 & H2 & H3 & H4). unfold entry_ok.
  rewrite <- (valid_roll_config wl1 wl2 roll Hn Hs). auto.
Qed.

Lemma scan_inv_empty (wl : t) (found : bool) :
  words wl = Some ∅ -> scan_inv (wl, found).
Proof.
  intros Hw. exists ∅. simpl. split; [exact Hw|]. split; [auto|].
  intros roll word H. rewrite lookup_empty in H. discriminate.
Qed.

(** One turn of the loop keeps the dictionary as described. *)
Lemma load_line_inv (st : t * bool) (raw : string) :
  scan_inv st -> scan_inv (load_line st raw).
Proof.
  destruct st as [wl found]. intros Hinv. unfold load_line.
  destruct (is_empty (strip raw)) eqn:He; [exact Hinv|].
  destruct (PARSE_WORD (strip raw)) as [[roll word]|] eqn:Hw.
  - simpl negb. cbv iota.
    destruct (PARSE_WORD_stripped _ _ _ (strip_rstrip_fixed raw) Hw)
      as (Hkey & Hdig & Hne & Hstrip & _).
    destruct Hinv as (m & Hm & _ & Hall). simpl in Hm, Hall.
    destruct (_is_valid_roll wl roll) eqn:Hv.
    + exists (<[roll := word]> m). simpl. unfold store. rewrite Hm. simpl.
      split; [reflexivity|]. split; [discriminate|].
      intros k w Hk. apply lookup_insert_Some in Hk as [[<- <-]|[_ Hk]].
      * split; [exact Hkey|]. split; [exact Hdig|]. split; [exact Hv|].
        split; assumption.
      * apply (entry_ok_config wl); [reflexivity | reflexivity |].
        apply Hall, Hk.
    + exists m. simpl. split; [exact Hm|]. split; [discriminate|].
      exact Hall.
  - destruct found; [exact Hinv|]. simpl negb. cbv iota.
    destruct Hinv as (m & Hm & Hemp & _). simpl in Hm, Hemp.
    rewrite (Hemp eq_refl) in Hm.
    destruct (PARSE_OPTION (strip raw)) as [[name digits]|];
      [|apply scan_inv_empty; exact Hm].
    destruct (upper name) as [|c rest]; [apply scan_inv_empty; exact Hm|].
    destruct (Ascii.eqb c "D"); [apply scan_inv_empty; exact Hm|].
    destruct (Ascii.eqb c "S"); apply scan_inv_empty; exact Hm.
Qed.

Lemma scan_invariant (wl : t) (wordlist : list string) :
  scan_inv (scan wl wordlist).
Proof.
  unfold scan. apply fold_left_preserves.
  - intros st raw. apply load_line_inv.
  - apply scan_inv_empty. reflexivity.
Qed.

(** Whether or not the die can be built, [load] leaves the dictionary and
    the configuration as the scan left them. *)
Lemma load_scan (wl : t) (wordlist : list string) :
  words (fst (load wl wordlist)) = words (fst (scan wl wordlist)) /\
  num_dice (fst (load wl wordlist)) = num_dice (fst (scan wl wordlist)) /\
  dice_sides (fst (load wl wordlist)) = dice_sides (fst (scan wl wordlist)).
Proof.
  unfold load. destruct (Dice.__init__ _); simpl; auto.
Qed.

Lemma load_entries (wl : t) (wordlist : list string) (roll word : string) :
  get (fst (load wl wordlist)) roll = Some word ->
  entry_ok (fst (load wl wordlist)) roll word.
Proof.
  destruct (load_scan wl wordlist) as (Hw & Hn & Hs).
  destruct (scan_invariant wl wordlist) as (m & Hm & _ & Hall).
  unfold get. rewrite Hw, Hm. intros Hk.
  apply (entry_ok_config (fst (scan wl wordlist))); auto.
Qed.

End LoadInvariant.

Section StoreFacts.

Import DicewareWordList.

Lemma get_store_eq (wl : t) (roll word : string) :
  get (store roll word wl) roll = Some word.
Proof. unfold get, store. simpl. apply lookup_insert_eq. Qed.

Lemma get_store_ne (wl : t) (roll word other : string) :
  roll <> other -> get (store roll word wl) other = get wl other.
Proof.
  intros Hne. unfold get, store. simpl. rewrite lookup_insert_ne by exact Hne.
  destruct (words wl); [reflexivity | apply lookup_empty].
Qed.

(** What one turn of the loop does with a word entry. *)
Lemma load_line_word (wl : t) (found : bool) (raw roll word : string) :
  PARSE_WORD (strip raw) = Some (roll, word) ->
  load_line (wl, found) raw =
    (if _is_valid_roll wl roll then store roll word wl else wl, true).
Proof.
  intros Hw. unfold load_line.
  destruct (is_empty (strip raw)) eqn:He.
  { destruct (strip raw); [discriminate Hw | discriminate He]. }
  rewrite Hw. reflexivity.
Qed.

End StoreFacts.

(** X1. Every key of the dictionary that [load] leaves, whether or not the
    call ended with an error, is a text of digits that [_is_valid_roll]
    accepts under the configuration [load] leaves; in particular it has
    [num_dice] characters. *)
Theorem load_keys_valid
    (wl : DicewareWordList.t) (wordlist : list string) (roll word : string) :
  DicewareWordList.get (fst (DicewareWordList.load wl wordlist)) roll
    = Some word ->
  string_forallb isdigit roll = true /\
  DicewareWordList._is_valid_roll
    (fst (DicewareWordList.load wl wordlist)) roll = true /\
  len roll = DicewareWordList.num_dice (fst (DicewareWordList.load wl wordlist)).
Proof.
  intros Hget.
  destruct (load_entries _ _ _ _ Hget) as (_ & Hd & Hv & _ & _).
  split; [exact Hd|]. split; [exact Hv|].
  unfold DicewareWordList._is_valid_roll in Hv.
  destruct (Z.eqb_spec (len roll)
              (DicewareWordList.num_dice
                 (fst (DicewareWordList.load wl wordlist))));
    [assumption | discriminate Hv].
Qed.

Lemma load_keys_valid_witness :
  DicewareWordList.get
    (fst (DicewareWordList.load DicewareWordList.new
            ["DICE=2"; "7 x"; "11 a"; "123 b"; "17 c"; "16  d e "]))
    "16" = Some "d e" /\
  len "16" = 2.
Proof.
  split; [vm_compute; reflexivity|].
  exact (proj2 (proj2 (load_keys_valid DicewareWordList.new
                         ["DICE=2"; "7 x"; "11 a"; "123 b"; "17 c"; "16  d e "]
                         "16" "d e" eq_refl))).
Defined.

(** X2. Every word of the dictionary that [load] leaves is non-empty and
    has no white space before or after it; so on a loaded list the test
    [not self.words.get(roll)] of [_verify] holds for absent keys only. *)
Theorem load_words_clean
    (wl : DicewareWordList.t) (wordlist : list string) (roll : string) :
  (forall word,
      DicewareWordList.get (fst (DicewareWordList.load wl wordlist)) roll
        = Some word ->
      is_empty word = false /\ strip word = word) /\
  (DicewareWordList.no_word (fst (DicewareWordList.load wl wordlist)) roll
     = true <->
   DicewareWordList.get (fst (DicewareWordList.load wl wordlist)) roll = None).
Proof.
  split.
  - intros word Hget.
    destruct (load_entries _ _ _ _ Hget) as (_ & _ & _ & Hne & Hs). auto.
  - unfold DicewareWordList.no_word.
    destruct (DicewareWordList.get _ roll) as [word|] eqn:Hget; [|tauto].
    destruct (load_entries _ _ _ _ Hget) as (_ & _ & _ & Hne & _).
    rewrite Hne. split; discriminate.
Qed.

Lemma load_words_clean_witness :
  DicewareWordList.get
    (fst (DicewareWordList.load DicewareWordList.new
            ["DICE=2"; "16  d e "])) "16" = Some "d e" /\
  strip "d e" = "d e".
Proof.
  split; [vm_compute; reflexivity|].
  exact (proj2 (proj1 (load_words_clean DicewareWordList.new
                         ["DICE=2"; "16  d e "] "16") "d e" eq_refl)).
Defined.

(** X3. When the scan of [load] meets a line with the shape of a word
    entry, [found_words] is set and the configuration stays as it is.  If
    [_is_valid_roll] accepts the roll, the word is stored under it,
    replacing any word stored for that roll before, and no other key
    changes; if not, the line is skipped without an error and the
    dictionary stays as it is. *)
Theorem word_line_stored
    (wl : DicewareWordList.t) (pre : list string) (raw roll word : string) :
  PARSE_WORD (strip raw) = Some (roll, word) ->
  snd (DicewareWordList.scan wl (pre ++ [raw])) = true /\
  DicewareWordList.num_dice (fst (DicewareWordList.scan wl (pre ++ [raw])))
    = DicewareWordList.num_dice (fst (DicewareWordList.scan wl pre)) /\
  DicewareWordList.dice_sides (fst (DicewareWordList.scan wl (pre ++ [raw])))
    = DicewareWordList.dice_sides (fst (DicewareWordList.scan wl pre)) /\
  (DicewareWordList._is_valid_roll (fst (DicewareWordList.scan wl pre)) roll
     = true ->
   DicewareWordList.get (fst (DicewareWordList.scan wl (pre ++ [raw]))) roll
     = Some word /\
   forall other,
     roll <> other ->
     DicewareWordList.get (fst (DicewareWordList.scan wl (pre ++ [raw]))) other
       = DicewareWordList.get (fst (DicewareWordList.scan wl pre)) other) /\
  (DicewareWordList._is_valid_roll (fst (DicewareWordList.scan wl pre)) roll
     = false ->
   fst (DicewareWordList.scan wl (pre ++ [raw]))
     = fst (DicewareWordList.scan wl pre)).
Proof.
  intros Hw. rewrite scan_snoc.
  destruct (DicewareWordList.scan wl pre) as [wl1 found].
  rewrite (load_line_word _ _ _ _ _ Hw). simpl.
  destruct (DicewareWordList._is_valid_roll wl1 roll).
  - split; [reflexivity|]. split; [reflexivity|]. split; [reflexivity|].
    split; [|discriminate]. intros _. split.
    + apply get_store_eq.
    + intros other Hne. apply get_store_ne, Hne.
  - split; [reflexivity|]. split; [reflexivity|]. split; [reflexivity|].
    split; [discriminate | reflexivity].
Qed.

Lemma word_line_stored_witness :
  PARSE_WORD (strip "11 second") = Some ("11", "second") /\
  DicewareWordList._is_valid_roll
    (fst (DicewareWordList.scan DicewareWordList.new ["DICE=2"; "11 first"]))
    "11" = true /\
  DicewareWordList.get
    (fst (DicewareWordList.scan DicewareWordList.new
            (["DICE=2"; "11 first"] ++ ["11 second"]))) "11" = Some "second".
Proof.
  split; [reflexivity|]. split; [vm_compute; reflexivity|].
  refine (proj1 (proj1 (proj2 (proj2 (proj2
            (word_line_stored DicewareWordList.new ["DICE=2"; "11 first"]
               "11 second" "11" "second" eq_refl)))) _)).
  vm_compute. reflexivity.
Defined.

(** X4. When no line of the input has the shape of a word entry, [load]
    leaves an empty dictionary, whatever options the lines set; [verify]
    then raises the exception that no word list has been loaded, and
    [get_password] returns a password without rolls or words. *)
Theorem load_without_words (wl : DicewareWordList.t) (wordlist : list string) :
  existsb word_shaped wordlist = false ->
  DicewareWordList.words (fst (DicewareWordList.load wl wordlist)) = Some ∅ /\
  (forall depth,
      DicewareWordList.verify (fst (DicewareWordList.load wl wordlist)) depth
      = Some (Raise (DicewareWordListException
                       "No word list has been loaded."))) /\
  (forall num_words entropy,
      DicewareWordList.get_password
        (fst (DicewareWordList.load wl wordlist)) num_words entropy
      = Some (DicewarePassword.mk [] [], entropy)).
Proof.
  intros Hnone.
  destruct (load_scan wl wordlist) as (Hw & _ & _).
  destruct (scan_invariant wl wordlist) as (m & Hm & Hemp & _).
  rewrite scan_found in Hemp. rewrite (Hemp Hnone) in Hm.
  rewrite <- Hw in Hm.
  assert (Hno : DicewareWordList.no_words
                  (fst (DicewareWordList.load wl wordlist)) = true).
  { unfold DicewareWordList.no_words. rewrite Hm.
    apply bool_decide_eq_true. reflexivity. }
  split; [exact Hm|]. split.
  - intros depth. unfold DicewareWordList.verify. rewrite Hno. reflexivity.
  - intros n e. unfold DicewareWordList.get_password. rewrite Hno.
    destruct (DicewareWordList.dice _); reflexivity.
Qed.

Lemma load_without_words_witness :
  existsb word_shaped ["DICE=3"; ""; "sides:4"; "# words follow"] = false /\
  DicewareWordList.verify
    (fst (DicewareWordList.load DicewareWordList.new
            ["DICE=3"; ""; "sides:4"; "# words follow"])) 0
  = Some (Raise (DicewareWordListException "No word list has been loaded.")).
Proof.
  split; [reflexivity|].
  exact (proj1 (proj2 (load_without_words DicewareWordList.new
                         ["DICE=3"; ""; "sides:4"; "# words follow"] eq_refl))
           0%nat).
Defined.

(** * The order in which [verify] looks for keys *)

Section KeyOrder.

Import DicewareWordList.

Lemma key_lt_cons (c : ascii) (a b : string) :
  key_lt a b -> key_lt (String c a) (String c b).
Proof.
  unfold key_lt. simpl. unfold Ascii.compare. rewrite N.compare_refl. auto.
Qed.

Lemma key_lt_head (c d : ascii) (a b : string) :
  digit_value c < digit_value d -> key_lt (String c a) (String d b).
Proof.
  unfold key_lt, digit_value, code. intros H. simpl. unfold Ascii.compare.
  replace (N_of_ascii c ?= N_of_ascii d)%N with Lt; [reflexivity|].
  symmetry. apply N.compare_lt_iff. lia.
Qed.


Lemma block_sorted (c : ascii) (rolls : list string) :
  StronglySorted key_lt rolls ->
  StronglySorted key_lt (map (String.append (String c EmptyString)) rolls).
Proof.
  induction 1 as [|x l _ IH Hx]; simpl; constructor; [exact IH|].
  apply Forall_forall. intros y Hy.
  apply list_elem_of_In, in_map_iff in Hy as (z & <- & Hz).
  apply key_lt_cons.
  rewrite Forall_forall in Hx. apply Hx, list_elem_of_In, Hz.
Qed.

(** The blocks of the sides [lo], [lo + 1], ... below ten, one after the
    other, are in order, and every key in them starts with a digit of
    value [lo] at least. *)
Lemma blocks_sorted (sides : Z) (rolls : list string) (k : nat) :
  StronglySorted key_lt rolls ->
  forall lo,
    1 <= lo -> lo + Z.of_nat k <= 10 ->
    StronglySorted key_lt
      (flat_map (fun side => map (String.append (str side)) rolls)
                (range lo (lo + Z.of_nat k))) /\
    forall key,
      In key (flat_map (fun side => map (String.append (str side)) rolls)
                       (range lo (lo + Z.of_nat k))) ->
      exists c rest, key = String c rest /\ lo <= digit_value c.
Proof.
  intros Hrolls. induction k as [|k IH]; intros lo Hlo Hhi.
  - unfold range. rewrite seqZ_nil by lia. simpl.
    split; [constructor | intros key []].
  - rewrite range_cons by lia.
    replace (lo + Z.of_nat (S k)) with (lo + 1 + Z.of_nat k) by lia.
    destruct (IH (lo + 1) ltac:(lia) ltac:(lia)) as [Hsorted Hheads].
    destruct (str_digit lo ltac:(lia)) as (c & Hc & _ & Hv).
    simpl flat_map. rewrite Hc. split.
    + apply StronglySorted_app. split; [|split].
      * intros x y Hx Hy.
        apply list_elem_of_In, in_map_iff in Hx as (z & <- & _).
        apply list_elem_of_In, Hheads in Hy as (d & rest & -> & Hd).
        apply key_lt_head. lia.
      * apply block_sorted, Hrolls.
      * exact Hsorted.
    + intros key Hin. apply in_app_or in Hin as [Hin|Hin].
      * apply in_map_iff in Hin as (z & <- & _).
        exists c, z. split; [reflexivity | lia].
      * destruct (Hheads key Hin) as (d & rest & -> & Hd).
        exists d, rest. split; [reflexivity | lia].
Qed.

(** The enumeration of [_verify] is in strictly ascending order. *)
Lemma all_rolls_sorted (sides : Z) (n : nat) :
  sides <= 9 -> StronglySorted key_lt (all_rolls sides n).
Proof.
  intros Hs. induction n as [|n IH].
  - simpl. repeat constructor.
  - simpl all_rolls. destruct (Z.le_gt_cases 1 sides) as [Hpos|Hneg].
    + replace (sides + 1) with (1 + Z.of_nat (Z.to_nat sides)) by lia.
      apply (blocks_sorted sides); [exact IH | lia | lia].
    + unfold range. rewrite seqZ_nil by lia. constructor.
Qed.

Lemma find_first {A : Type} (P : A -> bool) (l : list A) (x : A) :
  List.find P l = Some x ->
  P x = true /\
  exists before after,
    l = (before ++ x :: after)%list /\
    forall y, In y before -> P y = false.
Proof.
  induction l as [|y l IH]; [discriminate|]. simpl.
  destruct (P y) eqn:Hy.
  - intros H. inversion H; subst. split; [exact Hy|].
    exists [], l. split; [reflexivity | intros ? []].
  - intros H. destruct (IH H) as (Hx & before & after & -> & Hb).
    split; [exact Hx|]. exists (y :: before), after.
    split; [reflexivity|]. intros z [<-|Hz]; auto.
Qed.

Lemma verify_mono_le (wl : t) (d1 d2 : nat) (r : result unit) :
  (d1 <= d2)%nat -> verify wl d1 = Some r -> verify wl d2 = Some r.
Proof.
  unfold verify. destruct (no_words wl); [auto|].
  apply _verify_mono_le.
Qed.

Lemma verify_Ok_loaded (wl : t) (depth : nat) :
  verify wl depth = Some (Ok tt) -> no_words wl = false.
Proof.
  unfold verify. destruct (no_words wl); [discriminate | reflexivity].
Qed.

End KeyOrder.

(** X5. On a loaded list with at least one die and at most nine sides,
    when [verify] raises, the key named in the message is a key that
    [_is_valid_roll] accepts and that has no word, and it is the least
    such key: every other one comes after it in the order of texts. *)
Theorem verify_reports_least_missing
    (wl : DicewareWordList.t) (depth : nat) (e : exn) :
  DicewareWordList.no_words wl = false ->
  1 <= DicewareWordList.num_dice wl ->
  DicewareWordList.dice_sides wl <= 9 ->
  DicewareWordList.verify wl depth = Some (Raise e) ->
  exists roll,
    e = DicewareWordListException (DicewareWordList.msg_missing roll) /\
    string_forallb isdigit roll = true /\
    DicewareWordList._is_valid_roll wl roll = true /\
    DicewareWordList.no_word wl roll = true /\
    forall other,
      string_forallb isdigit other = true ->
      DicewareWordList._is_valid_roll wl other = true ->
      DicewareWordList.no_word wl other = true ->
      other = roll \/ key_lt roll other.
Proof.
  intros Hw Hn Hs Hraise.
  apply (verify_mono_le wl depth
           (Nat.max depth (Z.to_nat (DicewareWordList.num_dice wl))))
    in Hraise; [|lia].
  rewrite (verify_enumerates wl _ Hw Hn Hs) in Hraise by lia.
  destruct (List.find _ _) as [roll|] eqn:Hfind; [|discriminate].
  simpl in Hraise. injection Hraise as <-.
  destruct (find_first _ _ _ Hfind) as (Hmiss & before & after & Hsplit & Hb).
  assert (Hin : In roll (all_rolls (DicewareWordList.dice_sides wl)
                           (Z.to_nat (DicewareWordList.num_dice wl)))).
  { rewrite Hsplit. apply in_or_app. right. left. reflexivity. }
  apply all_rolls_valid in Hin as [Hdig Hval]; [|lia|exact Hs].
  exists roll. split; [reflexivity|]. split; [exact Hdig|].
  split; [exact Hval|]. split; [exact Hmiss|].
  intros other Hod Hov Hom.
  assert (Hoin : In other (all_rolls (DicewareWordList.dice_sides wl)
                             (Z.to_nat (DicewareWordList.num_dice wl))))
    by (apply all_rolls_valid; [lia | exact Hs | auto]).
  pose proof (all_rolls_sorted (DicewareWordList.dice_sides wl)
                (Z.to_nat (DicewareWordList.num_dice wl)) Hs) as Hsorted.
  rewrite Hsplit in Hoin, Hsorted.
  apply in_app_or in Hoin as [Hoin|[<-|Hoin]].
  - rewrite (Hb other Hoin) in Hom. discriminate.
  - left. reflexivity.
  - right. apply StronglySorted_app_1_r in Hsorted.
    apply StronglySorted_cons in Hsorted as [Hall _].
    rewrite Forall_forall in Hall. apply Hall, list_elem_of_In, Hoin.
Qed.

Lemma verify_reports_least_missing_witness :
  DicewareWordList.no_words two_sided = false /\
  1 <= DicewareWordList.num_dice two_sided /\
  DicewareWordList.dice_sides two_sided <= 9 /\
  DicewareWordList.verify two_sided 3
    = Some (Raise (DicewareWordListException
                     (DicewareWordList.msg_missing "121"))) /\
  exists roll,
    DicewareWordListException (DicewareWordList.msg_missing "121")
      = DicewareWordListException (DicewareWordList.msg_missing roll) /\
    DicewareWordList.no_word two_sided roll = true.
Proof.
  assert (H1 : DicewareWordList.no_words two_sided = false)
    by (vm_compute; reflexivity).
  assert (H2 : 1 <= DicewareWordList.num_dice two_sided)
    by (vm_compute; discriminate).
  assert (H3 : DicewareWordList.dice_sides two_sided <= 9)
    by (vm_compute; discriminate).
  assert (H4 : DicewareWordList.verify two_sided 3
               = Some (Raise (DicewareWordListException
                                (DicewareWordList.msg_missing "121"))))
    by (vm_compute; reflexivity).
  split; [exact H1|]. split; [exact H2|]. split; [exact H3|].
  split; [exact H4|].
  destruct (verify_reports_least_missing two_sided 3 _ H1 H2 H3 H4)
    as (roll & He & _ & _ & Hm & _).
  exists roll. split; [exact He | exact Hm].
Defined.

(** X6. On a loaded list with at least one die and at most nine sides,
    [verify] returns normally exactly when every text of digits that
    [_is_valid_roll] accepts has a non-empty word. *)
Theorem verify_ok_iff_covered (wl : DicewareWordList.t) (depth : nat) :
  DicewareWordList.no_words wl = false ->
  1 <= DicewareWordList.num_dice wl ->
  DicewareWordList.dice_sides wl <= 9 ->
  (Z.to_nat (DicewareWordList.num_dice wl) <= depth)%nat ->
  DicewareWordList.verify wl depth = Some (Ok tt) <->
  (forall roll,
      string_forallb isdigit roll = true ->
      DicewareWordList._is_valid_roll wl roll = true ->
      DicewareWordList.no_word wl roll = false).
Proof.
  intros Hw Hn Hs Hd. rewrite (verify_enumerates wl _ Hw Hn Hs Hd). split.
  - intros Hok roll Hdig Hval.
    destruct (List.find _ _) eqn:Hfind; [discriminate|].
    apply (find_none _ _ Hfind).
    apply all_rolls_valid; [lia | exact Hs | auto].
  - intros Hall.
    destruct (List.find _ _) as [roll|] eqn:Hfind; [|reflexivity].
    apply find_some in Hfind as [Hin Hmiss].
    apply all_rolls_valid in Hin as [Hdig Hval]; [|lia|exact Hs].
    rewrite (Hall roll Hdig Hval) in Hmiss. discriminate.
Qed.

Lemma verify_ok_iff_covered_witness :
  DicewareWordList.no_words coin = false /\
  1 <= DicewareWordList.num_dice coin /\
  DicewareWordList.dice_sides coin <= 9 /\
  (Z.to_nat (DicewareWordList.num_dice coin) <= 1)%nat /\
  DicewareWordList.verify coin 1 = Some (Ok tt) /\
  DicewareWordList.no_word coin "2" = false.
Proof.
  assert (H1 : DicewareWordList.no_words coin = false)
    by (vm_compute; reflexivity).
  assert (H2 : 1 <= DicewareWordList.num_dice coin)
    by (vm_compute; discriminate).
  assert (H3 : DicewareWordList.dice_sides coin <= 9)
    by (vm_compute; discriminate).
  assert (H4 : (Z.to_nat (DicewareWordList.num_dice coin) <= 1)%nat)
    by (vm_compute; lia).
  assert (H5 : DicewareWordList.verify coin 1 = Some (Ok tt))
    by (vm_compute; reflexivity).
  split; [exact H1|]. split; [exact H2|]. split; [exact H3|].
  split; [exact H4|]. split; [exact H5|].
  apply (proj1 (verify_ok_iff_covered coin 1 H1 H2 H3 H4) H5 "2");
    vm_compute; reflexivity.
Defined.

(** X7. With ten sides or more, [verify] never returns normally, whatever
    the dictionary holds and however many nested calls are allowed: it
    raises or it does not end. *)
Theorem verify_ten_sides_never_returns
    (wl : DicewareWordList.t) (depth : nat) :
  10 <= DicewareWordList.dice_sides wl ->
  DicewareWordList.verify wl depth = None \/
  exists e, DicewareWordList.verify wl depth = Some (Raise e).
Proof.
  intros Hs. unfold DicewareWordList.verify.
  destruct (DicewareWordList.no_words wl); [right; eauto|].
  pose proof (_verify_ten_sides_never_ok wl depth Hs "") as Hnot.
  destruct (DicewareWordList._verify wl depth "") as [[[]|e]|];
    [contradiction | right; eauto | left; reflexivity].
Qed.

Lemma verify_ten_sides_never_returns_witness :
  10 <= DicewareWordList.dice_sides ten_sided /\
  (DicewareWordList.verify ten_sided 5 = None \/
   exists e, DicewareWordList.verify ten_sided 5 = Some (Raise e)).
Proof.
  assert (H : 10 <= DicewareWordList.dice_sides ten_sided)
    by (vm_compute; discriminate).
  split; [exact H|].
  exact (verify_ten_sides_never_returns ten_sided 5 H).
Defined.

(** * Passwords from a verified list *)

Section VerifiedPasswords.

Import DicewareWordList.

(** A list that [verify] accepts has a non-empty word for every key of the
    enumeration. *)
Lemma verified_covered (wl : t) (depth : nat) (roll : string) :
  1 <= num_dice wl -> dice_sides wl <= 9 ->
  verify wl depth = Some (Ok tt) ->
  In roll (all_rolls (dice_sides wl) (Z.to_nat (num_dice wl))) ->
  no_word wl roll = false.
Proof.
  intros Hn Hs Hok Hin.
  pose proof (verify_Ok_loaded _ _ Hok) as Hw.
  apply (verify_mono_le wl depth (Nat.max depth (Z.to_nat (num_dice wl))))
    in Hok; [|lia].
  rewrite (verify_enumerates wl _ Hw Hn Hs) in Hok by lia.
  destruct (List.find _ _) eqn:Hfind; [discriminate|].
  exact (find_none _ _ Hfind roll Hin).
Qed.

Lemma no_word_false (wl : t) (roll : string) :
  no_word wl roll = false ->
  exists word, get wl roll = Some word /\ is_empty word = false.
Proof.
  unfold no_word. destruct (get wl roll) as [word|]; [eauto | discriminate].
Qed.

End VerifiedPasswords.

(** X8. With a die built for [dice_sides] and at most nine sides, every
    roll key that [get_password] returns is a text of digits that
    [_is_valid_roll] accepts: [num_dice] digits, each between 1 and
    [dice_sides]. *)
Theorem password_rolls_valid
    (wl : DicewareWordList.t) (d : Dice.t) (num_words : Z)
    (entropy rest : list byte) (p : DicewarePassword.t) :
  DicewareWordList.dice wl = Some d ->
  Dice.__init__ (DicewareWordList.dice_sides wl) = Ok d ->
  DicewareWordList.dice_sides wl <= 9 ->
  0 <= DicewareWordList.num_dice wl ->
  DicewareWordList.get_password wl num_words entropy = Some (p, rest) ->
  forall roll,
    In roll (DicewarePassword.rolls p) ->
    string_forallb isdigit roll = true /\
    DicewareWordList._is_valid_roll wl roll = true /\
    len roll = DicewareWordList.num_dice wl.
Proof.
  intros Hdice Hd Hs Hn Hget roll Hin.
  pose proof (get_password_rolls_valid wl d num_words entropy rest p
                Hdice Hd Hs Hn Hget) as Hall.
  rewrite Forall_forall in Hall.
  destruct (Hall roll (proj2 (list_elem_of_In _ _) Hin)) as [Hdig Hval].
  split; [exact Hdig|]. split; [exact Hval|].
  unfold DicewareWordList._is_valid_roll in Hval.
  destruct (Z.eqb_spec (len roll) (DicewareWordList.num_dice wl));
    [assumption | discriminate Hval].
Qed.

Lemma password_rolls_valid_witness :
  DicewareWordList.dice two_sided = Some (Dice.mk 2 255) /\
  DicewareWordList.get_password two_sided 2 [x00; x01; x03; x04; x05; x06; x07]
    = Some (DicewarePassword.mk ["122"; "121"] [None; None], [x07]) /\
  len "121" = DicewareWordList.num_dice two_sided.
Proof.
  split; [vm_compute; reflexivity|]. split; [vm_compute; reflexivity|].
  refine (proj2 (proj2 (password_rolls_valid two_sided (Dice.mk 2 255) 2
            [x00; x01; x03; x04; x05; x06; x07] [x07]
            (DicewarePassword.mk ["122"; "121"] [None; None])
            _ _ _ _ _ "121" _))).
  - vm_compute. reflexivity.
  - vm_compute. reflexivity.
  - vm_compute. discriminate.
  - vm_compute. discriminate.
  - vm_compute. reflexivity.
  - right. left. reflexivity.
Defined.

(** X9. On a list that [verify] has accepted, with a die built for
    [dice_sides], at least one die and at most nine sides, [get_password]
    finds a non-empty word for every roll: no element of [words] is
    [None]. *)
Theorem verified_password_words
    (wl : DicewareWordList.t) (d : Dice.t) (depth : nat) (num_words : Z)
    (entropy rest : list byte) (p : DicewarePassword.t) :
  DicewareWordList.dice wl = Some d ->
  Dice.__init__ (DicewareWordList.dice_sides wl) = Ok d ->
  DicewareWordList.dice_sides wl <= 9 ->
  1 <= DicewareWordList.num_dice wl ->
  DicewareWordList.verify wl depth = Some (Ok tt) ->
  DicewareWordList.get_password wl num_words entropy = Some (p, rest) ->
  forall i roll,
    DicewarePassword.rolls p !! i = Some roll ->
    exists word,
      DicewarePassword.words p !! i = Some (Some word) /\
      DicewareWordList.get wl roll = Some word /\
      is_empty word = false.
Proof.
  intros Hdice Hd Hs Hn Hok Hget i roll Hi.
  pose proof (get_password_rolls_valid wl d num_words entropy rest p
                Hdice Hd Hs ltac:(lia) Hget) as Hall.
  rewrite Forall_forall in Hall.
  destruct (Hall roll (list_elem_of_lookup_2 _ _ _ Hi)) as [Hdig Hval].
  assert (Hin : In roll (all_rolls (DicewareWordList.dice_sides wl)
                           (Z.to_nat (DicewareWordList.num_dice wl))))
    by (apply all_rolls_valid; [lia | exact Hs | auto]).
  destruct (no_word_false _ _ (verified_covered wl depth roll Hn Hs Hok Hin))
    as (word & Hword & Hne).
  exists word. split; [|split; assumption].
  unfold DicewareWordList.get_password in Hget. rewrite Hdice in Hget.
  rewrite (verify_Ok_loaded _ _ Hok) in Hget.
  apply bind_Some in Hget as (rolls & e1 & _ & Hget).
  inversion Hget; subst; clear Hget. simpl in *.
  rewrite list_lookup_fmap, Hi. simpl. rewrite Hword. reflexivity.
Qed.

Lemma verified_password_words_witness :
  DicewareWordList.dice coin = Some (Dice.mk 2 255) /\
  DicewareWordList.verify coin 1 = Some (Ok tt) /\
  DicewareWordList.get_password coin 2 [x05; x08]
    = Some (DicewarePassword.mk ["2"; "1"] [Some "b"; Some "a"], []) /\
  exists word,
    DicewarePassword.words
      (DicewarePassword.mk ["2"; "1"] [Some "b"; Some "a"]) !! 1%nat
      = Some (Some word) /\
    DicewareWordList.get coin "1" = Some word /\
    is_empty word = false.
Proof.
  split; [vm_compute; reflexivity|]. split; [vm_compute; reflexivity|].
  split; [vm_compute; reflexivity|].
  refine (verified_password_words coin (Dice.mk 2 255) 1 2 [x05; x08] []
            (DicewarePassword.mk ["2"; "1"] [Some "b"; Some "a"])
            _ _ _ _ _ _ 1%nat "1" _).
  - vm_compute. reflexivity.
  - vm_compute. reflexivity.
  - vm_compute. discriminate.
  - vm_compute. discriminate.
  - vm_compute. reflexivity.
  - vm_compute. reflexivity.
  - reflexivity.
Defined.

(** * The entropy a password takes *)

Section EntropyUse.

Import DicewareWordList.

Lemma starves_ret {A : Type} (d : Dice.t) (a : A) : starves d 0 (ret a).
Proof. intros e He. lia. Qed.

Lemma starves_bind {A B : Type} (d : Dice.t) (k1 k2 : nat)
    (m : Entropy A) (f : A -> Entropy B) :
  consumes d k1 m -> starves d k1 m -> (forall a, starves d k2 (f a)) ->
  starves d (k1 + k2) (bind m f).
Proof.
  intros Hc Hm Hf e He. unfold bind.
  destruct (Nat.lt_ge_cases (usable d e) k1) as [Hlt|Hge].
  - rewrite (Hm e Hlt). reflexivity.
  - destruct (Hc e Hge) as (a & e1 & -> & He1). apply Hf. lia.
Qed.

Lemma starves_eq {A : Type} (d : Dice.t) (k k' : nat) (m : Entropy A) :
  k = k' -> starves d k m -> starves d k' m.
Proof. intros ->. auto. Qed.

Lemma starves_replicate {A : Type} (d : Dice.t) (k n : nat) (m : Entropy A) :
  consumes d k m -> starves d k m -> starves d (n * k) (replicate_m n m).
Proof.
  intros Hc Hm. induction n as [|n IH]; [apply starves_ret|].
  simpl. apply starves_bind; [exact Hc | exact Hm|]. intros x.
  apply (starves_eq d (n * k + 0)); [lia|].
  apply starves_bind; [apply consumes_replicate, Hc | exact IH|].
  intros xs. apply starves_ret.
Qed.

Lemma starves_roll (d : Dice.t) : starves d 1 (Dice.roll d).
Proof.
  intros e. induction e as [|b e IH]; intros He; [reflexivity|].
  rewrite usable_cons in He. rewrite roll_cons.
  destruct (Dice.byte_value b >? Dice.ceiling d); [apply IH, He | lia].
Qed.







(** The number of byte values a die accepts. *)
Lemma accepted_count (sides : Z) (d : Dice.t) :
  Dice.__init__ sides = Ok d ->
  usable d all_bytes = Z.to_nat (Dice.ceiling d + 1).
Proof.
  intros Hd. destruct (init_inv _ _ Hd) as [Hs _].
  pose proof uniform_table as Htab.
  rewrite forallb_forall in Htab.
  specialize (Htab sides (in_range 2 21 sides ltac:(lia))).
  rewrite forallb_forall in Htab.
  specialize (Htab 1 (in_range 1 (sides + 1) 1 ltac:(lia))).
  unfold uniform_at in Htab. rewrite Hd in Htab.
  apply andb_true_iff in Htab as [_ H]. apply Nat.eqb_eq in H. exact H.
Qed.

End EntropyUse.



(** X11. A die with [sides] in 2..20 rejects exactly [256 mod sides] of
    the 256 byte values, fewer than [sides]; when [sides] divides 256 it
    rejects none, and [roll] returns on the first byte it reads. *)
Theorem roll_rejections (sides : Z) (d : Dice.t) :
  Dice.__init__ sides = Ok d ->
  255 - Dice.ceiling d = 256 mod sides /\
  256 mod sides < sides /\
  usable d all_bytes = Z.to_nat (256 - 256 mod sides) /\
  (256 mod sides = 0 ->
   forall b rest,
     Dice.roll d (b :: rest) = Some (Dice.byte_value b mod sides + 1, rest)).
Proof.
  intros Hd. pose proof (accepted_count _ _ Hd) as Hcount.
  destruct (init_inv _ _ Hd) as [Hs ->].
  unfold Dice.ceiling in *.
  pose proof (Z.div_mod 256 sides ltac:(lia)) as Hdm.
  pose proof (Z.mod_pos_bound 256 sides ltac:(lia)) as Hmod.
  split; [lia|]. split; [lia|]. split.
  - rewrite Hcount. f_equal. lia.
  - intros Hz b rest. rewrite roll_cons. unfold Dice.ceiling, Dice.num_sides.
    pose proof (byte_value_range b).
    destruct (Z.gtb_spec (Dice.byte_value b) (256 / sides * sides - 1));
      [lia | reflexivity].
Qed.

Lemma roll_rejections_witness :
  Dice.__init__ 6 = Ok (Dice.mk 6 251) /\
  255 - Dice.ceiling (Dice.mk 6 251) = 256 mod 6 /\
  usable (Dice.mk 6 251) all_bytes = Z.to_nat (256 - 256 mod 6).
Proof.
  split; [reflexivity|].
  pose proof (roll_rejections 6 (Dice.mk 6 251) eq_refl) as H.
  split; [exact (proj1 H) | exact (proj1 (proj2 (proj2 H)))].
Defined.

(** * The size of a verified list *)

Section ListSize.

Import DicewareWordList.

Lemma length_blocks {A B : Type} (f : A -> list B) (c : nat) (l : list A) :
  (forall x, length (f x) = c) ->
  length (flat_map f l) = (length l * c)%nat.
Proof.
  intros Hf. induction l as [|x l IH]; [reflexivity|].
  simpl. rewrite length_app, Hf, IH. reflexivity.
Qed.



(** What a key stored by [load] tells about the configuration. *)
Lemma entry_config (wl : t) (roll word : string) :
  entry_ok wl roll word -> 1 <= num_dice wl /\ 1 <= dice_sides wl.
Proof.
  intros (Hne & _ & Hval & _). unfold _is_valid_roll in Hval.
  destruct roll as [|c roll]; [discriminate|].
  destruct (Z.eqb_spec (len (String c roll)) (num_dice wl)) as [Hlen|];
    [|discriminate].
  simpl in Hval. apply andb_true_iff in Hval as [Hc _].
  fold (side_char (dice_sides wl) c) in Hc. apply side_char_iff in Hc.
  pose proof (digit_value_range c) as _.
  unfold len in Hlen. simpl in Hlen. split; lia.
Qed.

End ListSize.



(** * The script *)

Section ScriptFacts.

Import DicewareWordList.

(** A list that [load] has read and [verify] accepts has at least one die
    and between one and nine sides. *)
Lemma verified_config (wl : t) (wordlist : list string) (depth : nat) :
  verify (fst (load wl wordlist)) depth = Some (Ok tt) ->
  1 <= num_dice (fst (load wl wordlist)) /\
  1 <= dice_sides (fst (load wl wordlist)) <= 9.
Proof.
  set (wl' := fst (load wl wordlist)). intros Hok.
  pose proof (verify_Ok_loaded _ _ Hok) as Hw. unfold no_words in Hw.
  destruct (words wl') as [m|] eqn:Hm; [|discriminate].
  apply bool_decide_eq_false in Hw.
  destruct (map_choose m Hw) as (roll & word & Hk).
  assert (Hentry : entry_ok wl' roll word).
  { apply load_entries. unfold get. fold wl'. rewrite Hm. exact Hk. }
  destruct (entry_config _ _ _ Hentry) as [Hn Hs1].
  split; [exact Hn|]. split; [exact Hs1|].
  destruct (Z.le_gt_cases (dice_sides wl') 9); [assumption|].
  exfalso. apply (verify_ten_sides_never_ok wl' depth); [lia | exact Hok].
Qed.

(** The words [get_password] looks up for keys that all have one. *)
Lemma texts_found (wl : t) (rolls : list string) :
  Forall (fun roll => no_word wl roll = false) rolls ->
  exists ws,
    Script.texts (map (get wl) rolls) = Some ws /\
    Forall2 (fun roll w => get wl roll = Some w /\ is_empty w = false)
            rolls ws.
Proof.
  induction 1 as [|roll rolls Hroll _ IH].
  - exists []. split; [reflexivity | constructor].
  - destruct IH as (ws & Hws & Hall).
    destruct (no_word_false _ _ Hroll) as (w & Hw & Hne).
    exists (w :: ws). simpl. rewrite Hw, Hws.
    split; [reflexivity | constructor; auto].
Qed.

(** On a verified list every password has a line. *)
Lemma verified_password_line
    (wl : t) (d : Dice.t) (depth : nat) (num_words : Z)
    (e rest : list byte) (p : DicewarePassword.t) :
  dice wl = Some d -> Dice.__init__ (dice_sides wl) = Ok d ->
  dice_sides wl <= 9 -> 1 <= num_dice wl ->
  verify wl depth = Some (Ok tt) ->
  get_password wl num_words e = Some (p, rest) ->
  length (DicewarePassword.rolls p) = Z.to_nat num_words /\
  Forall (fun roll => string_forallb isdigit roll = true /\
                      _is_valid_roll wl roll = true)
         (DicewarePassword.rolls p) /\
  exists ws,
    Script.texts (DicewarePassword.words p) = Some ws /\
    Forall2 (fun roll w => get wl roll = Some w /\ is_empty w = false)
            (DicewarePassword.rolls p) ws.
Proof.
  intros Hdice Hd Hs Hn Hok Hget.
  pose proof (get_password_rolls_valid wl d num_words e rest p
                Hdice Hd Hs ltac:(lia) Hget) as Hvalid.
  unfold get_password in Hget.
  rewrite Hdice, (verify_Ok_loaded _ _ Hok) in Hget.
  apply bind_Some in Hget as (rolls & e1 & Hrolls & Hget).
  inversion Hget; subst; clear Hget. simpl in *.
  split; [exact (replicate_m_length _ _ _ _ _ Hrolls)|].
  split; [exact Hvalid|].
  apply texts_found. rewrite Forall_forall in *.
  intros roll Hin. destruct (Hvalid roll Hin) as [Hdig Hval].
  apply (verified_covered wl depth roll Hn Hs Hok).
  apply all_rolls_valid; [lia | exact Hs | auto].
Qed.

(** The loop of the script on a verified list. *)
Lemma write_passwords_verified
    (a : Script.args) (wl : t) (d : Dice.t) (depth : nat) (n : nat) :
  dice wl = Some d -> Dice.__init__ (dice_sides wl) = Ok d ->
  dice_sides wl <= 9 -> 1 <= num_dice wl ->
  verify wl depth = Some (Ok tt) ->
  forall e lines ending,
    Script.write_passwords a wl n e = Some (lines, ending) ->
    ending = Script.Finished /\
    exists ps,
      length ps = n /\
      Forall2 (fun line p => Script.line_of a p = Some line) lines ps /\
      Forall (fun p =>
                length (DicewarePassword.rolls p) = Z.to_nat (Script.words a) /\
                Forall2 (fun roll w =>
                           exists word,
                             w = Some word /\ get wl roll = Some word /\
                             is_empty word = false /\
                             _is_valid_roll wl roll = true)
                        (DicewarePassword.rolls p)
                        (DicewarePassword.words p))
             ps.
Proof.
  intros Hdice Hd Hs Hn Hok.
  induction n as [|n IH]; intros e lines ending H; simpl in H.
  - inversion H; subst. split; [reflexivity|].
    exists []. repeat split; constructor.
  - destruct (get_password wl (Script.words a) e) as [[p rest]|] eqn:Hget;
      [|discriminate].
    destruct (verified_password_line wl d depth _ _ _ _
                Hdice Hd Hs Hn Hok Hget) as (Hlen & Hvalid & ws & Hws & Hall).
    unfold Script.line_of in H. rewrite Hws in H.
    fold (Script.line_of a p) in H.
    destruct (Script.write_passwords a wl n rest) as [[lines' e']|] eqn:Hrec;
      [|discriminate].
    inversion H; subst; clear H.
    destruct (IH _ _ _ Hrec) as (-> & ps & Hps & Hlines & Hgood).
    split; [reflexivity|].
    exists (p :: ps). split; [simpl; f_equal; exact Hps|]. split.
    + constructor; [|exact Hlines].
      unfold Script.line_of. rewrite Hws. reflexivity.
    + constructor; [|exact Hgood]. split; [exact Hlen|].
      unfold get_password in Hget.
      rewrite Hdice, (verify_Ok_loaded _ _ Hok) in Hget.
      apply bind_Some in Hget as (rolls & e1 & _ & Hget).
      inversion Hget; subst; clear Hget. simpl in *.
      clear - Hall Hvalid. revert ws Hall.
      induction Hvalid as [|roll rolls [_ Hv] _ IHv]; intros ws Hall;
        inversion Hall; subst; simpl; constructor.
      * destruct H1 as [Hw Hne]. exists y. rewrite Hw. auto.
      * eapply IHv; eauto.
Qed.

End ScriptFacts.

Section ScriptOutcomes.

Import DicewareWordList.

Lemma init_raise (sides : Z) (e : exn) :
  Dice.__init__ sides = Raise e ->
  e = AssertionError /\ ~ 2 <= sides <= 20.
Proof.
  unfold Dice.__init__.
  destruct (2 <=? sides) eqn:Hlo; destruct (sides <=? 20) eqn:Hhi;
    simpl; intros H; inversion H; split; auto; lia.
Qed.

Lemma load_raise (wl wl' : t) (wordlist : list string) (e : exn) :
  load wl wordlist = (wl', Raise e) ->
  e = AssertionError /\
  ~ 2 <= dice_sides (fst (scan wl wordlist)) <= 20.
Proof.
  unfold load.
  destruct (Dice.__init__ (dice_sides (fst (scan wl wordlist))))
    as [d|e'] eqn:Hd; intros H; inversion H; subst.
  exact (init_raise _ _ Hd).
Qed.

Lemma for_each_Raise_inv {A : Type} (f : A -> option (result unit))
    (l : list A) (e : exn) :
  for_each f l = Some (Raise e) -> exists x, In x l /\ f x = Some (Raise e).
Proof.
  induction l as [|y l IH]; [discriminate|]. simpl.
  destruct (f y) as [[[]|e']|] eqn:Hy; try discriminate.
  - intros H. destruct (IH H) as (x & Hx & Hfx). exists x. auto.
  - intros H. inversion H; subst. exists y. auto.
Qed.

(** [_verify] raises for a key without a word only. *)
Lemma _verify_raise (wl : t) (depth : nat) (e : exn) :
  forall prefix,
    _verify wl depth prefix = Some (Raise e) ->
    exists roll,
      e = DicewareWordListException (msg_missing roll) /\
      len roll = num_dice wl /\ no_word wl roll = true.
Proof.
  induction depth as [|depth IH]; intros prefix; [discriminate|].
  rewrite _verify_S. intros H.
  apply for_each_Raise_inv in H as (side & _ & H). simpl in H.
  destruct (Z.eqb_spec (len (String.append prefix (str side))) (num_dice wl))
    as [Hlen|]; [|exact (IH _ H)].
  destruct (no_word wl (String.append prefix (str side))) eqn:Hmiss;
    [|discriminate].
  inversion H; subst. eauto.
Qed.

Lemma verify_raise (wl : t) (depth : nat) (e : exn) :
  verify wl depth = Some (Raise e) ->
  (e = DicewareWordListException msg_not_loaded /\ no_words wl = true) \/
  (exists roll,
      e = DicewareWordListException (msg_missing roll) /\
      len roll = num_dice wl /\ no_word wl roll = true).
Proof.
  unfold verify. destruct (no_words wl).
  - intros H. inversion H. left. auto.
  - intros H. right. exact (_verify_raise _ _ _ _ H).
Qed.

End ScriptOutcomes.



(** X14. When the script runs to its end, [load] and [verify] have
    returned normally, and the script has written one line for each of
    [args.passwords] passwords, to the file of [--out] when there is one
    and to the standard output otherwise, and nothing to the other.  Each
    password has [args.words] rolls, every roll is one [_is_valid_roll]
    accepts, and its word is the non-empty word the list holds for it. *)
Theorem script_finished
    (a : Script.args) (depth : nat) (entropy : list byte)
    (t : Script.transcript) :
  Script.main a depth entropy = Some t ->
  Script.ended t = Script.Finished ->
  snd (DicewareWordList.load DicewareWordList.new (Script.wordlist a)) = Ok tt /\
  DicewareWordList.verify
    (fst (DicewareWordList.load DicewareWordList.new (Script.wordlist a))) depth
    = Some (Ok tt) /\
  (if Script.out a then Script.stdout t else Script.file t) = [] /\
  exists ps,
    length ps = Z.to_nat (Script.passwords a) /\
    Forall2 (fun line p => Script.line_of a p = Some line)
            (if Script.out a then Script.file t else Script.stdout t) ps /\
    Forall (fun p =>
              length (DicewarePassword.rolls p) = Z.to_nat (Script.words a) /\
              Forall2 (fun roll w =>
                         exists word,
                           w = Some word /\
                           DicewareWordList.get
                             (fst (DicewareWordList.load DicewareWordList.new
                                     (Script.wordlist a))) roll = Some word /\
                           is_empty word = false /\
                           DicewareWordList._is_valid_roll
                             (fst (DicewareWordList.load DicewareWordList.new
                                     (Script.wordlist a))) roll = true)
                      (DicewarePassword.rolls p)
                      (DicewarePassword.words p))
           ps.
Proof.
  unfold Script.main.
  destruct (DicewareWordList.load DicewareWordList.new (Script.wordlist a))
    as [wl [[]|e0]] eqn:Hload; simpl fst; simpl snd.
  - destruct (load_ok_dice _ _ _ Hload) as (d & Hdice & Hd).
    destruct (DicewareWordList.verify wl depth) as [[[]|e1]|] eqn:Hver;
      [| |discriminate].
    + assert (Hwl : wl = fst (DicewareWordList.load DicewareWordList.new
                                (Script.wordlist a)))
        by (rewrite Hload; reflexivity).
      pose proof Hver as Hver'. rewrite Hwl in Hver'.
      destruct (verified_config _ _ _ Hver') as (Hn & _ & Hs).
      rewrite <- Hwl in Hn, Hs.
      destruct (Script.write_passwords a wl _ entropy) as [[lines e2]|] eqn:Hwr;
        [|discriminate].
      destruct (write_passwords_verified a wl d depth _ Hdice Hd Hs Hn Hver
                  _ _ _ Hwr) as (-> & ps & Hps & Hlines & Hgood).
      intros H _. inversion H; subst; clear H.
      split; [reflexivity|]. split; [reflexivity|].
      destruct (Script.out a); simpl; (split; [reflexivity|]);
        exists ps; auto.
    + destruct e1; intros H; inversion H; subst; discriminate.
  - destruct e0; intros H; inversion H; subst; discriminate.
Qed.

Lemma script_finished_witness :
  Script.main (Script.mk_args coin_lines 3 2 true false) 5
              [x00; x01; x02; x03; x04; x05; x06]
    = Some (Script.mk_transcript
              [String.append "1 2 1" (String.append Script.tab "a b a");
               String.append "2 1 2" (String.append Script.tab "b a b")]
              [] Script.Finished) /\
  DicewareWordList.verify
    (fst (DicewareWordList.load DicewareWordList.new coin_lines)) 5
    = Some (Ok tt).
Proof.
  split; [vm_compute; reflexivity|].
  exact (proj1 (proj2 (script_finished
                  (Script.mk_args coin_lines 3 2 true false) 5
                  [x00; x01; x02; x03; x04; x05; x06]
                  (Script.mk_transcript
                     [String.append "1 2 1" (String.append Script.tab "a b a");
                      String.append "2 1 2" (String.append Script.tab "b a b")]
                     [] Script.Finished)
                  eq_refl eq_refl))).
Defined.

(** X15. When the script ends at [exit()], it has written exactly one line,
    to the standard output, and no password: either the message that no
    word list has been loaded, the dictionary being empty, or the message
    that names a roll of [num_dice] characters without a word. *)
Theorem script_exit
    (a : Script.args) (depth : nat) (entropy : list byte)
    (t : Script.transcript) :
  Script.main a depth entropy = Some t ->
  Script.ended t = Script.Exited ->
  Script.file t = [] /\
  ((Script.stdout t = ["No word list has been loaded."] /\
    DicewareWordList.no_words
      (fst (DicewareWordList.load DicewareWordList.new (Script.wordlist a)))
      = true) \/
   (exists roll,
       Script.stdout t = [DicewareWordList.msg_missing roll] /\
       len roll = DicewareWordList.num_dice
                    (fst (DicewareWordList.load DicewareWordList.new
                            (Script.wordlist a))) /\
       DicewareWordList.no_word
         (fst (DicewareWordList.load DicewareWordList.new (Script.wordlist a)))
         roll = true)).
Proof.
  unfold Script.main.
  destruct (DicewareWordList.load DicewareWordList.new (Script.wordlist a))
    as [wl [[]|e0]] eqn:Hload; simpl fst.
  - destruct (load_ok_dice _ _ _ Hload) as (d & Hdice & Hd).
    destruct (DicewareWordList.verify wl depth) as [[[]|e1]|] eqn:Hver;
      [| |discriminate].
    + assert (Hwl : wl = fst (DicewareWordList.load DicewareWordList.new
                                (Script.wordlist a)))
        by (rewrite Hload; reflexivity).
      pose proof Hver as Hver'. rewrite Hwl in Hver'.
      destruct (verified_config _ _ _ Hver') as (Hn & _ & Hs).
      rewrite <- Hwl in Hn, Hs.
      destruct (Script.write_passwords a wl _ entropy) as [[lines e2]|] eqn:Hwr;
        [|discriminate].
      destruct (write_passwords_verified a wl d depth _ Hdice Hd Hs Hn Hver
                  _ _ _ Hwr) as (-> & _).
      intros H He. inversion H; subst; clear H.
      destruct (Script.out a); discriminate He.
    + destruct (verify_raise _ _ _ Hver) as [[-> Hno] | (roll & -> & Hl & Hm)];
        intros H _; inversion H; subst; simpl; (split; [reflexivity|]).
      * left. auto.
      * right. exists roll. auto.
  - destruct (load_raise _ _ _ _ Hload) as [-> _].
    intros H He. inversion H; subst. discriminate He.
Qed.

Lemma script_exit_witness :
  Script.main (Script.mk_args two_sided_lines 3 2 true true) 5 [x00]
    = Some (Script.mk_transcript [DicewareWordList.msg_missing "121"] []
              Script.Exited) /\
  Script.file (Script.mk_transcript [DicewareWordList.msg_missing "121"] []
                 Script.Exited) = [].
Proof.
  split; [vm_compute; reflexivity|].
  exact (proj1 (script_exit (Script.mk_args two_sided_lines 3 2 true true) 5
                  [x00]
                  (Script.mk_transcript [DicewareWordList.msg_missing "121"] []
                     Script.Exited)
                  eq_refl eq_refl)).
Defined.

(** * The lines the two patterns match *)

Section PatternShapes.






End PatternShapes.





(** * The scan as a whole *)

Section ScanFacts.

Import DicewareWordList.

Lemma load_line_blank (st : t * bool) (raw : string) :
  blank raw = true -> load_line st raw = st.
Proof.
  intros H. destruct st as [wl found]. unfold load_line.
  unfold blank in H. rewrite H. reflexivity.
Qed.

Lemma fold_skip_blank (l : list string) :
  forall st,
    fold_left load_line (List.filter (fun raw => negb (blank raw)) l) st
    = fold_left load_line l st.
Proof.
  induction l as [|raw l IH]; intros st; [reflexivity|]. simpl.
  destruct (blank raw) eqn:Hb; simpl.
  - rewrite (load_line_blank st raw Hb). apply IH.
  - apply IH.
Qed.

(** Once [found_words] is set, a turn of the loop keeps it set and keeps
    the configuration. *)
Lemma load_line_frozen (wl : t) (raw : string) :
  snd (load_line (wl, true) raw) = true /\
  num_dice (fst (load_line (wl, true) raw)) = num_dice wl /\
  dice_sides (fst (load_line (wl, true) raw)) = dice_sides wl.
Proof.
  unfold load_line.
  destruct (is_empty (strip raw)); [auto|].
  destruct (PARSE_WORD (strip raw)) as [[roll word]|]; simpl; [|auto].
  destruct (_is_valid_roll wl roll); simpl; auto.
Qed.

Lemma fold_frozen (l : list string) :
  forall wl,
    num_dice (fst (fold_left load_line l (wl, true))) = num_dice wl /\
    dice_sides (fst (fold_left load_line l (wl, true))) = dice_sides wl.
Proof.
  induction l as [|raw l IH]; intros wl; [simpl; auto|].
  cbn [fold_left].
  destruct (load_line_frozen wl raw) as (Hf & Hn & Hs).
  destruct (load_line (wl, true) raw) as [wl1 found].
  cbn [fst snd] in *. subst found.
  destruct (IH wl1) as [-> ->]. auto.
Qed.

End ScanFacts.

(** X18. Lines that are empty or hold white space only have no effect on
    [load]: leaving them out of the input gives the same object and the
    same result. *)
Theorem load_skips_blank_lines
    (wl : DicewareWordList.t) (wordlist : list string) :
  DicewareWordList.load wl
    (List.filter (fun raw => negb (blank raw)) wordlist)
  = DicewareWordList.load wl wordlist.
Proof.
  unfold DicewareWordList.load, DicewareWordList.scan.
  rewrite fold_skip_blank. reflexivity.
Qed.

(** X19. The configuration [load] leaves is the one the scan has reached
    at the first line with the shape of a word entry: no later line
    changes [num_dice] or [dice_sides], and the die is built for that
    number of sides. *)
Theorem configuration_frozen
    (wl : DicewareWordList.t) (pre post : list string) :
  existsb word_shaped pre = true ->
  DicewareWordList.num_dice (fst (DicewareWordList.load wl (pre ++ post)))
    = DicewareWordList.num_dice (fst (DicewareWordList.scan wl pre)) /\
  DicewareWordList.dice_sides (fst (DicewareWordList.load wl (pre ++ post)))
    = DicewareWordList.dice_sides (fst (DicewareWordList.scan wl pre)) /\
  snd (DicewareWordList.load wl (pre ++ post))
    = match Dice.__init__
              (DicewareWordList.dice_sides (fst (DicewareWordList.scan wl pre)))
      with
      | Ok _ => Ok tt
      | Raise e => Raise e
      end.
Proof.
  intros Hpre.
  assert (Hscan :
    DicewareWordList.num_dice (fst (DicewareWordList.scan wl (pre ++ post)))
      = DicewareWordList.num_dice (fst (DicewareWordList.scan wl pre)) /\
    DicewareWordList.dice_sides (fst (DicewareWordList.scan wl (pre ++ post)))
      = DicewareWordList.dice_sides (fst (DicewareWordList.scan wl pre))).
  { pose proof (scan_found wl pre) as Hfound. rewrite Hpre in Hfound.
    unfold DicewareWordList.scan in *. rewrite fold_left_app.
    destruct (fold_left DicewareWordList.load_line pre _) as [wl1 found].
    simpl in Hfound. subst found. apply fold_frozen. }
  destruct Hscan as [Hn Hs].
  destruct (load_scan wl (pre ++ post)) as (_ & Hn' & Hs').
  rewrite Hn', Hs', Hn, Hs. split; [reflexivity|]. split; [reflexivity|].
  unfold DicewareWordList.load. rewrite Hs.
  destruct (Dice.__init__ _); reflexivity.
Qed.

Lemma configuration_frozen_witness :
  existsb word_shaped ["DICE=2"; "11 a"] = true /\
  DicewareWordList.num_dice
    (fst (DicewareWordList.load DicewareWordList.new
            (["DICE=2"; "11 a"] ++ ["DICE=4"; "SIDES=30"; "12 b"])))
  = DicewareWordList.num_dice
      (fst (DicewareWordList.scan DicewareWordList.new ["DICE=2"; "11 a"])).
Proof.
  split; [reflexivity|].
  exact (proj1 (configuration_frozen DicewareWordList.new ["DICE=2"; "11 a"]
                  ["DICE=4"; "SIDES=30"; "12 b"] eq_refl)).
Defined.

(** * Every roll key is as likely as any other *)

Section KeyUniformity.

Import DicewareWordList.

Lemma usable_le_length (d : Dice.t) (e : list byte) :
  (usable d e <= length e)%nat.
Proof.
  induction e as [|b e IH]; [unfold usable; simpl; lia|].
  rewrite usable_cons. simpl.
  destruct (Dice.byte_value b >? Dice.ceiling d); lia.
Qed.

Lemma byte_seqs_S (n : nat) :
  byte_seqs (S n) = flat_map (fun b => map (cons b) (byte_seqs n)) all_bytes.
Proof. reflexivity. Qed.

Lemma byte_seqs_length (n : nat) (e : list byte) :
  In e (byte_seqs n) -> length e = n.
Proof.
  revert e. induction n as [|n IH]; intros e.
  - intros [<-|[]]. reflexivity.
  - rewrite byte_seqs_S. intros Hin.
    apply in_flat_map in Hin as (b & _ & Hin).
    apply in_map_iff in Hin as (e' & <- & He').
    simpl. f_equal. apply IH, He'.
Qed.

Lemma length_filter_map {A B : Type} (P : B -> bool) (Q : A -> bool)
    (g : A -> B) (l : list A) :
  (forall x, In x l -> P (g x) = Q x) ->
  length (List.filter P (map g l)) = length (List.filter Q l).
Proof.
  induction l as [|x l IH]; intros H; [reflexivity|]. simpl.
  rewrite (H x (or_introl eq_refl)).
  assert (Hl : length (List.filter P (map g l)) = length (List.filter Q l))
    by (apply IH; intros y Hy; apply H; right; exact Hy).
  destruct (Q x); simpl; rewrite Hl; reflexivity.
Qed.

Lemma length_filter_false {A : Type} (P : A -> bool) (l : list A) :
  (forall x, In x l -> P x = false) -> length (List.filter P l) = 0%nat.
Proof.
  induction l as [|x l IH]; intros H; [reflexivity|]. simpl.
  rewrite (H x (or_introl eq_refl)). apply IH.
  intros y Hy. apply H. right. exact Hy.
Qed.

Lemma length_filter_blocks {A B : Type} (P : B -> bool) (Q : A -> bool)
    (f : A -> list B) (c : nat) (l : list A) :
  (forall a, length (List.filter P (f a)) = if Q a then c else 0%nat) ->
  length (List.filter P (flat_map f l)) = (length (List.filter Q l) * c)%nat.
Proof.
  intros H. induction l as [|a l IH]; [reflexivity|]. simpl.
  rewrite List.filter_app, length_app, H, IH.
  destruct (Q a); simpl; lia.
Qed.

Lemma digit_value_inj (c1 c2 : ascii) :
  digit_value c1 = digit_value c2 -> c1 = c2.
Proof.
  unfold digit_value, code. intros H.
  rewrite <- (ascii_N_embedding c1), <- (ascii_N_embedding c2).
  f_equal. lia.
Qed.

(** One more die in front: the first byte has to produce the first digit
    of the key, and the other bytes the other digits. *)
Lemma hits_cons (sides side : Z) (d : Dice.t) (c : ascii) (key : string)
    (n : nat) (b : byte) (e : list byte) :
  Dice.__init__ sides = Ok d -> sides <= 9 ->
  str side = String c EmptyString -> digit_value c = side ->
  length e = n ->
  hits (S n) d (String c key) (b :: e) = produces d side b && hits n d key e.
Proof.
  intros Hd Hs Hc Hv Hlen. unfold hits, produces.
  destruct (Z.gtb_spec (Dice.byte_value b) (Dice.ceiling d)) as [Hrej|Hacc].
  - assert (Hnone : replicate_m (S n) (Dice.roll d) (b :: e) = None).
    { apply (starves_replicate d 1 (S n) _ (consumes_roll d) (starves_roll d)).
      rewrite usable_cons.
      destruct (Z.gtb_spec (Dice.byte_value b) (Dice.ceiling d)); [|lia].
      pose proof (usable_le_length d e). lia. }
    rewrite Hnone, roll_cons.
    destruct (Z.gtb_spec (Dice.byte_value b) (Dice.ceiling d)); [|lia].
    reflexivity.
  - assert (Hroll : forall rest,
               Dice.roll d (b :: rest)
               = Some (Dice.byte_value b mod Dice.num_sides d + 1, rest)).
    { intros rest. rewrite roll_cons.
      destruct (Z.gtb_spec (Dice.byte_value b) (Dice.ceiling d)); [lia|].
      reflexivity. }
    rewrite (Hroll []).
    change (replicate_m (S n) (Dice.roll d) (b :: e))
      with (bind (Dice.roll d)
              (fun x => bind (replicate_m n (Dice.roll d))
                          (fun xs => ret (x :: xs))) (b :: e)).
    unfold bind at 1. rewrite (Hroll e). unfold bind, ret.
    set (side_b := Dice.byte_value b mod Dice.num_sides d + 1).
    assert (Hrange : 1 <= side_b <= sides)
      by exact (roll_in_range sides d (b :: e) e side_b Hd (Hroll e)).
    destruct (replicate_m n (Dice.roll d) e) as [[rolled rest]|];
      [|rewrite andb_false_r; reflexivity].
    destruct (str_digit side_b ltac:(lia)) as (cb & Hcb & _ & Hvb).
    simpl map. simpl join. rewrite Hcb, append_cons.
    change (String.append "" (join (map str rolled)))
      with (join (map str rolled)).
    simpl String.eqb.
    destruct (Ascii.eqb_spec cb c) as [->|Hne];
      destruct (Z.eqb_spec side_b side) as [Heq|Hneq]; simpl; try reflexivity.
    + congruence.
    + exfalso. apply Hne, digit_value_inj. congruence.
Qed.

(** The number of byte values behind one side. *)
Lemma produces_count (sides side : Z) (d : Dice.t) :
  Dice.__init__ sides = Ok d -> 1 <= side <= sides ->
  length (List.filter (produces d side) all_bytes) = Z.to_nat (256 / sides).
Proof.
  intros Hd Hside. destruct (init_inv _ _ Hd) as [Hs _].
  pose proof uniform_table as Htab.
  rewrite forallb_forall in Htab.
  specialize (Htab sides (in_range 2 21 sides ltac:(lia))).
  rewrite forallb_forall in Htab.
  specialize (Htab side (in_range 1 (sides + 1) side ltac:(lia))).
  unfold uniform_at in Htab. rewrite Hd in Htab.
  apply andb_true_iff in Htab as [H _]. apply Nat.eqb_eq in H. exact H.
Qed.

(** The number of byte sequences behind one key. *)
Lemma hits_count (sides : Z) (d : Dice.t) (n : nat) :
  Dice.__init__ sides = Ok d -> sides <= 9 ->
  forall key,
    In key (all_rolls sides n) ->
    length (List.filter (hits n d key) (byte_seqs n))
    = (Z.to_nat (256 / sides) ^ n)%nat.
Proof.
  intros Hd Hs. induction n as [|n IH]; intros key Hkey.
  - destruct Hkey as [<-|[]]. reflexivity.
  - simpl all_rolls in Hkey. apply in_flat_map in Hkey as (side & Hside & Hkey).
    apply list_elem_of_In, elem_of_seqZ in Hside.
    apply in_map_iff in Hkey as (key' & <- & Hkey').
    destruct (str_digit side ltac:(lia)) as (c & Hc & _ & Hv).
    rewrite Hc, append_cons.
    change (String.append "" key') with key'.
    rewrite byte_seqs_S.
    rewrite (length_filter_blocks _ (produces d side) _
               (Z.to_nat (256 / sides) ^ n)%nat).
    + rewrite (produces_count sides side d Hd) by lia.
      simpl. reflexivity.
    + intros b. destruct (produces d side b) eqn:Hp.
      * rewrite (length_filter_map _ (hits n d key')); [apply IH, Hkey'|].
        intros e He.
        rewrite (hits_cons sides side d c key' n b e Hd Hs Hc Hv
                   (byte_seqs_length _ _ He)), Hp.
        reflexivity.
      * rewrite (length_filter_map _ (fun _ => false)).
        -- apply length_filter_false. reflexivity.
        -- intros e He.
           rewrite (hits_cons sides side d c key' n b e Hd Hs Hc Hv
                      (byte_seqs_length _ _ He)), Hp.
           reflexivity.
Qed.

Lemma rolls_key_hits (wl : t) (d : Dice.t) (key : string) (e : list byte) :
  rolls_key wl d key e = hits (Z.to_nat (num_dice wl)) d key e.
Proof.
  unfold rolls_key, hits, _roll_dice, bind, ret.
  destruct (replicate_m _ _ e) as [[sides rest]|]; reflexivity.
Qed.

Lemma length_byte_seqs (n : nat) : length (byte_seqs n) = (256 ^ n)%nat.
Proof.
  induction n as [|n IH]; [reflexivity|].
  rewrite byte_seqs_S.
  rewrite (length_blocks _ (256 ^ n)%nat)
    by (intros b; rewrite length_map; exact IH).
  rewrite all_bytes_length. reflexivity.
Qed.

End KeyUniformity.

(** X20. With a die built for [dice_sides] and at most nine sides, every
    key that [_is_valid_roll] accepts is returned by [_roll_dice] for the
    same number of the [256 ^ num_dice] sequences of [num_dice] bytes,
    namely [floor(256/dice_sides) ^ num_dice]: no roll key is more likely
    than another. *)
Theorem roll_keys_uniform
    (wl : DicewareWordList.t) (d : Dice.t) (key : string) :
  Dice.__init__ (DicewareWordList.dice_sides wl) = Ok d ->
  DicewareWordList.dice_sides wl <= 9 ->
  0 <= DicewareWordList.num_dice wl ->
  string_forallb isdigit key = true ->
  DicewareWordList._is_valid_roll wl key = true ->
  length (byte_seqs (Z.to_nat (DicewareWordList.num_dice wl)))
    = (256 ^ Z.to_nat (DicewareWordList.num_dice wl))%nat /\
  length (List.filter (rolls_key wl d key)
            (byte_seqs (Z.to_nat (DicewareWordList.num_dice wl))))
    = (Z.to_nat (256 / DicewareWordList.dice_sides wl)
       ^ Z.to_nat (DicewareWordList.num_dice wl))%nat.
Proof.
  intros Hd Hs Hn Hdig Hval. split; [apply length_byte_seqs|].
  rewrite (List.filter_ext _
             (hits (Z.to_nat (DicewareWordList.num_dice wl)) d key))
    by (intros e; apply rolls_key_hits).
  apply (hits_count _ d _ Hd Hs).
  apply all_rolls_valid; [exact Hn | exact Hs | auto].
Qed.

Lemma roll_keys_uniform_witness :
  Dice.__init__ (DicewareWordList.dice_sides coin) = Ok (Dice.mk 2 255) /\
  DicewareWordList._is_valid_roll coin "2" = true /\
  length (List.filter (rolls_key coin (Dice.mk 2 255) "2")
            (byte_seqs (Z.to_nat (DicewareWordList.num_dice coin))))
    = (Z.to_nat (256 / DicewareWordList.dice_sides coin)
       ^ Z.to_nat (DicewareWordList.num_dice coin))%nat.
Proof.
  assert (H1 : Dice.__init__ (DicewareWordList.dice_sides coin)
               = Ok (Dice.mk 2 255)) by (vm_compute; reflexivity).
  assert (H2 : DicewareWordList.dice_sides coin <= 9)
    by (vm_compute; discriminate).
  assert (H3 : 0 <= DicewareWordList.num_dice coin)
    by (vm_compute; discriminate).
  assert (H4 : string_forallb isdigit "2" = true) by reflexivity.
  assert (H5 : DicewareWordList._is_valid_roll coin "2" = true)
    by (vm_compute; reflexivity).
  split; [exact H1|]. split; [exact H5|].
  exact (proj2 (roll_keys_uniform coin (Dice.mk 2 255) "2" H1 H2 H3 H4 H5)).
Defined.
